(** * CameraSource (media/libstagefright/CameraSource.cpp)

    A shallow embedding of the frame hand-off core of [CameraSource]:
    the capture callback [dataCallbackTimestamp], the consumer calls
    [read] and [signalBufferReturned], and the [start]/[stop] life cycle.

    Every member function is a computation in a small monad that threads
    the object's fields, records the calls made on the collaborators
    (camera, condition variables, log) as a trace, and can end in a
    fault (a failed CHECK, a NULL camera handle) or block on a condition
    variable.  Each function is run atomically: the interleaving of the
    three threads is the order in which the functions are applied. *)

From Stdlib Require Import ZArith List String Bool Lia.
From Stdlib Require Import Permutation.
Import ListNotations.
Open Scope Z_scope.

(** ** Machine integers

    The counters are [int32_t] (they are printed with [%d]) and the
    timestamps [int64_t].  Arithmetic is carried out in [Z] and wrapped
    to the two's complement range of the C type. *)

Module Int.

Definition wrap (w : Z) (z : Z) : Z :=
  (z + 2 ^ (w - 1)) mod 2 ^ w - 2 ^ (w - 1).

Definition wrap32 : Z -> Z := wrap 32.
Definition wrap64 : Z -> Z := wrap 64.

Definition INT32_MAX : Z := 2 ^ 31 - 1.
Definition INT64_MAX : Z := 2 ^ 63 - 1.

Definition in32 (z : Z) : Prop := - 2 ^ 31 <= z <= INT32_MAX.
Definition in64 (z : Z) : Prop := - 2 ^ 63 <= z <= INT64_MAX.

(** [++x] on an [int32_t]. *)
Definition inc32 (x : Z) : Z := wrap32 (x + 1).
Definition add32 (x y : Z) : Z := wrap32 (x + y).
Definition add64 (x y : Z) : Z := wrap64 (x + y).
Definition sub64 (x y : Z) : Z := wrap64 (x - y).

End Int.
Import Int.

(** ** Data *)

(** [sp<IMemory>]: a camera buffer, known to this code by its address
    ([pointer()]) and its [size()]. *)
Record IMemory := { pointer : Z; size : Z }.

(** The [MediaBuffer] handed to the consumer by [read]: it wraps the
    frame's storage and carries the frame time under [kKeyTime]. *)
Record MediaBuffer := { data : Z; range_length : Z; meta_kKeyTime : Z }.

(** [MetaData] passed to [start]: only [kKeyTime] is looked up. *)
Record MetaData := { findInt64_kKeyTime : option Z }.

(** [ReadOptions]: only [getSeekTo] is looked up. *)
Record ReadOptions := { getSeekTo : option Z }.

(** The [status_t] values that occur; the numeric codes are not used. *)
Inductive status_t := OK | ERROR_UNSUPPORTED | OTHER_ERROR (code : Z).

Definition status_eqb (a b : status_t) : bool :=
  match a, b with
  | OK, OK => true
  | ERROR_UNSUPPORTED, ERROR_UNSUPPORTED => true
  | OTHER_ERROR x, OTHER_ERROR y => x =? y
  | _, _ => false
  end.

(** The fields of [CameraSource].  [mCamera] records whether the
    [sp<Camera>] is non-NULL; [mMeta] (the negotiated format) is left out. *)
Record CameraSource := mkCameraSource {
  mCamera : bool;
  mStartTimeUs : Z;
  mNumFramesReceived : Z;
  mLastFrameTimestampUs : Z;
  mStarted : bool;
  mFramesReceived : list IMemory;
  mFramesBeingEncoded : list IMemory;
  mFrameTimes : list Z;
  mFirstFrameTimeUs : Z;
  mNumFramesEncoded : Z;
  mNumFramesDropped : Z;
  mNumGlitches : Z;
  mGlitchDurationThresholdUs : Z;
  mCollectStats : bool
}.

Definition set_mCamera (v : bool) (s : CameraSource) : CameraSource :=
  mkCameraSource v (mStartTimeUs s) (mNumFramesReceived s)
    (mLastFrameTimestampUs s) (mStarted s) (mFramesReceived s)
    (mFramesBeingEncoded s) (mFrameTimes s) (mFirstFrameTimeUs s)
    (mNumFramesEncoded s) (mNumFramesDropped s) (mNumGlitches s)
    (mGlitchDurationThresholdUs s) (mCollectStats s).

Definition set_mStartTimeUs (v : Z) (s : CameraSource) : CameraSource :=
  mkCameraSource (mCamera s) v (mNumFramesReceived s)
    (mLastFrameTimestampUs s) (mStarted s) (mFramesReceived s)
    (mFramesBeingEncoded s) (mFrameTimes s) (mFirstFrameTimeUs s)
    (mNumFramesEncoded s) (mNumFramesDropped s) (mNumGlitches s)
    (mGlitchDurationThresholdUs s) (mCollectStats s).

Definition set_mNumFramesReceived (v : Z) (s : CameraSource) : CameraSource :=
  mkCameraSource (mCamera s) (mStartTimeUs s) v
    (mLastFrameTimestampUs s) (mStarted s) (mFramesReceived s)
    (mFramesBeingEncoded s) (mFrameTimes s) (mFirstFrameTimeUs s)
    (mNumFramesEncoded s) (mNumFramesDropped s) (mNumGlitches s)
    (mGlitchDurationThresholdUs s) (mCollectStats s).

Definition set_mLastFrameTimestampUs (v : Z) (s : CameraSource) : CameraSource :=
  mkCameraSource (mCamera s) (mStartTimeUs s) (mNumFramesReceived s)
    v (mStarted s) (mFramesReceived s)
    (mFramesBeingEncoded s) (mFrameTimes s) (mFirstFrameTimeUs s)
    (mNumFramesEncoded s) (mNumFramesDropped s) (mNumGlitches s)
    (mGlitchDurationThresholdUs s) (mCollectStats s).

Definition set_mStarted (v : bool) (s : CameraSource) : CameraSource :=
  mkCameraSource (mCamera s) (mStartTimeUs s) (mNumFramesReceived s)
    (mLastFrameTimestampUs s) v (mFramesReceived s)
    (mFramesBeingEncoded s) (mFrameTimes s) (mFirstFrameTimeUs s)
    (mNumFramesEncoded s) (mNumFramesDropped s) (mNumGlitches s)
    (mGlitchDurationThresholdUs s) (mCollectStats s).

Definition set_mFramesReceived (v : list IMemory) (s : CameraSource) : CameraSource :=
  mkCameraSource (mCamera s) (mStartTimeUs s) (mNumFramesReceived s)
    (mLastFrameTimestampUs s) (mStarted s) v
    (mFramesBeingEncoded s) (mFrameTimes s) (mFirstFrameTimeUs s)
    (mNumFramesEncoded s) (mNumFramesDropped s) (mNumGlitches s)
    (mGlitchDurationThresholdUs s) (mCollectStats s).

Definition set_mFramesBeingEncoded (v : list IMemory) (s : CameraSource) : CameraSource :=
  mkCameraSource (mCamera s) (mStartTimeUs s) (mNumFramesReceived s)
    (mLastFrameTimestampUs s) (mStarted s) (mFramesReceived s)
    v (mFrameTimes s) (mFirstFrameTimeUs s)
    (mNumFramesEncoded s) (mNumFramesDropped s) (mNumGlitches s)
    (mGlitchDurationThresholdUs s) (mCollectStats s).

Definition set_mFrameTimes (v : list Z) (s : CameraSource) : CameraSource :=
  mkCameraSource (mCamera s) (mStartTimeUs s) (mNumFramesReceived s)
    (mLastFrameTimestampUs s) (mStarted s) (mFramesReceived s)
    (mFramesBeingEncoded s) v (mFirstFrameTimeUs s)
    (mNumFramesEncoded s) (mNumFramesDropped s) (mNumGlitches s)
    (mGlitchDurationThresholdUs s) (mCollectStats s).

Definition set_mFirstFrameTimeUs (v : Z) (s : CameraSource) : CameraSource :=
  mkCameraSource (mCamera s) (mStartTimeUs s) (mNumFramesReceived s)
    (mLastFrameTimestampUs s) (mStarted s) (mFramesReceived s)
    (mFramesBeingEncoded s) (mFrameTimes s) v
    (mNumFramesEncoded s) (mNumFramesDropped s) (mNumGlitches s)
    (mGlitchDurationThresholdUs s) (mCollectStats s).

Definition set_mNumFramesEncoded (v : Z) (s : CameraSource) : CameraSource :=
  mkCameraSource (mCamera s) (mStartTimeUs s) (mNumFramesReceived s)
    (mLastFrameTimestampUs s) (mStarted s) (mFramesReceived s)
    (mFramesBeingEncoded s) (mFrameTimes s) (mFirstFrameTimeUs s)
    v (mNumFramesDropped s) (mNumGlitches s)
    (mGlitchDurationThresholdUs s) (mCollectStats s).

Definition set_mNumFramesDropped (v : Z) (s : CameraSource) : CameraSource :=
  mkCameraSource (mCamera s) (mStartTimeUs s) (mNumFramesReceived s)
    (mLastFrameTimestampUs s) (mStarted s) (mFramesReceived s)
    (mFramesBeingEncoded s) (mFrameTimes s) (mFirstFrameTimeUs s)
    (mNumFramesEncoded s) v (mNumGlitches s)
    (mGlitchDurationThresholdUs s) (mCollectStats s).

Definition set_mNumGlitches (v : Z) (s : CameraSource) : CameraSource :=
  mkCameraSource (mCamera s) (mStartTimeUs s) (mNumFramesReceived s)
    (mLastFrameTimestampUs s) (mStarted s) (mFramesReceived s)
    (mFramesBeingEncoded s) (mFrameTimes s) (mFirstFrameTimeUs s)
    (mNumFramesEncoded s) (mNumFramesDropped s) v
    (mGlitchDurationThresholdUs s) (mCollectStats s).

Definition set_mCollectStats (v : bool) (s : CameraSource) : CameraSource :=
  mkCameraSource (mCamera s) (mStartTimeUs s) (mNumFramesReceived s)
    (mLastFrameTimestampUs s) (mStarted s) (mFramesReceived s)
    (mFramesBeingEncoded s) (mFrameTimes s) (mFirstFrameTimeUs s)
    (mNumFramesEncoded s) (mNumFramesDropped s) (mNumGlitches s)
    (mGlitchDurationThresholdUs s) v.

(** ** Effects *)

(** Calls made on the collaborators, in the order they are made. *)
Inductive effect :=
| SetListener (attached : bool)            (* mCamera->setListener(..) *)
| StartRecording                           (* mCamera->startRecording() *)
| StopRecording                            (* mCamera->stopRecording() *)
| ReleaseRecordingFrame (frame : IMemory)  (* mCamera->releaseRecordingFrame(frame) *)
| SignalFrameAvailable                     (* mFrameAvailableCondition.signal() *)
| SignalFrameComplete                      (* mFrameCompleteCondition.signal() *)
| MediaBufferRelease (addr : Z)            (* buffer->setObserver(0); buffer->release() *)
| LogLongDelay                             (* LOGW("Long delay detected ...") *)
| LogWaiting (outstanding : Z)             (* LOGI("Waiting for outstanding frames ...") *)
| LogStats (received encoded dropped duration : Z).

Inductive condition := FrameAvailableCondition | FrameCompleteCondition.

Inductive fault :=
| CheckFailed (msg : string)   (* a CHECK / CHECK_EQ that does not hold *)
| NullCamera                   (* a call through mCamera when it is NULL *)
| EmptyList.                   (* *begin() of an empty List *)

Inductive result (A : Type) : Type :=
| Ret (a : A) (s : CameraSource) (tr : list effect)
| Fault (f : fault)
| Wait (c : condition) (s : CameraSource) (tr : list effect).
Arguments Ret {A} a s tr.
Arguments Fault {A} f.
Arguments Wait {A} c s tr.

Definition M (A : Type) : Type := CameraSource -> result A.

Definition ret {A} (a : A) : M A := fun s => Ret a s [].

Definition bind {A B} (m : M A) (k : A -> M B) : M B :=
  fun s =>
    match m s with
    | Ret a s1 t1 =>
        match k a s1 with
        | Ret b s2 t2 => Ret b s2 (t1 ++ t2)
        | Fault f => Fault f
        | Wait c s2 t2 => Wait c s2 (t1 ++ t2)
        end
    | Fault f => Fault f
    | Wait c s1 t1 => Wait c s1 t1
    end.

Definition get : M CameraSource := fun s => Ret s s [].
Definition modify (f : CameraSource -> CameraSource) : M unit :=
  fun s => Ret tt (f s) [].
Definition emit (e : effect) : M unit := fun s => Ret tt s [e].
Definition fail {A} (f : fault) : M A := fun _ => Fault f.
Definition wait {A} (c : condition) : M A := fun s => Wait c s [].

Declare Scope cam_scope.
Delimit Scope cam_scope with cam.
Notation "x <- m ;; k" := (bind m (fun x => k))
  (at level 61, m at next level, right associativity) : cam_scope.
Notation "m ;; k" := (bind m (fun _ => k))
  (at level 61, right associativity) : cam_scope.
Open Scope cam_scope.

(** Modelled from the spec: the macros [CHECK] and [CHECK_EQ] of
    MediaDebug.h, which is not part of the sources at hand.  The spec
    calls a check that does not hold a fatal assertion failure: nothing
    after it runs. *)
Definition CHECK (cond : bool) (msg : string) : M unit :=
  if cond then ret tt else fail (CheckFailed msg).

(** A call through [mCamera]: [sp::operator->] on a NULL handle faults. *)
Definition camera (e : effect) : M unit :=
  s <- get ;; if mCamera s then emit e else fail NullCamera.

(** ** The member functions *)

Definition glitchLogPeriod : Z := 10.

(** The message of the check at the end of [stop]. *)
Definition checkMessage : string :=
  "mNumFramesReceived != mNumFramesEncoded + mNumFramesDropped".

(** The constructor, lines 124-151: the counters start at zero and the
    glitch threshold at 200000 us, raised to one frame interval
    [1000000LL / frameRate] when that is longer.  [frameRate] is what the
    camera parameters report; the division faults when it is zero.
    [mStartTimeUs] is not in the initialiser list: its indeterminate
    value is the argument [startTimeUs0].  Format negotiation (lines
    142-168) only fills [mMeta]. *)
Definition new_CameraSource (frameRate : Z) (startTimeUs0 : Z)
  : option CameraSource :=
  if frameRate =? 0 then None
  else
    let glitchDurationUs := wrap64 (Z.quot 1000000 frameRate) in
    let threshold := 200000 in
    Some (mkCameraSource true startTimeUs0 0 0 false [] [] [] 0 0 0 0
            (if glitchDurationUs >? threshold then glitchDurationUs
             else threshold)
            false).

Section Members.

(** The virtual hook [skipCurrentFrame], overridden by
    [CameraSourceTimeLapse]; the base class answers [false]. *)
Variable skipCurrentFrame : Z -> bool.

Definition releaseRecordingFrame (frame : IMemory) : M unit :=
  camera (ReleaseRecordingFrame frame).

(** Lines 255-259; the binder calling identity is not modelled. *)
Definition releaseOneRecordingFrame (frame : IMemory) : M unit :=
  releaseRecordingFrame frame.

(** Line 178: [CHECK_EQ(OK, mCamera->startRecording())]; [cameraStatus] is
    what the camera answers. *)
Definition startCameraRecording (cameraStatus : status_t) : M unit :=
  camera StartRecording ;;
  CHECK (status_eqb OK cameraStatus) "OK != mCamera->startRecording()".

Definition stopCameraRecording : M unit := camera StopRecording.

(** Lines 181-203.  [recordStats] tells whether the system property
    media.stagefright.record-stats reads 1 or true. *)
Definition start (recordStats : bool) (meta : option MetaData)
    (cameraStatus : status_t) : M status_t :=
  s <- get ;;
  CHECK (negb (mStarted s)) "!mStarted" ;;
  (if recordStats then modify (set_mCollectStats true) else ret tt) ;;
  modify (set_mStartTimeUs 0) ;;
  match meta with
  | Some {| findInt64_kKeyTime := Some startTimeUs |} =>
      modify (set_mStartTimeUs startTimeUs)
  | _ => ret tt
  end ;;
  camera (SetListener true) ;;
  startCameraRecording cameraStatus ;;
  modify (set_mStarted true) ;;
  ret OK.

(** Lines 241-249: the loop runs over [mFramesReceived] from the front;
    [mFrameTimes] is not touched. *)
Fixpoint releaseQueuedFrames_loop (frames : list IMemory) : M unit :=
  match frames with
  | [] => ret tt
  | it :: rest =>
      releaseRecordingFrame it ;;
      modify (set_mFramesReceived rest) ;;
      modify (fun s => set_mNumFramesDropped (inc32 (mNumFramesDropped s)) s) ;;
      releaseQueuedFrames_loop rest
  end.

Definition releaseQueuedFrames : M unit :=
  s <- get ;; releaseQueuedFrames_loop (mFramesReceived s).

(** [stop], lines 212-218: everything before the wait loop. *)
Definition stop_begin : M unit :=
  modify (set_mStarted false) ;;
  emit SignalFrameAvailable ;;
  camera (SetListener false) ;;
  stopCameraRecording ;;
  releaseQueuedFrames.

(** [stop], lines 219-234: the wait loop and what follows it.  With a
    frame still being encoded the caller blocks on
    [mFrameCompleteCondition]; it resumes by running [stop_drain] again. *)
Definition stop_drain : M status_t :=
  s <- get ;;
  match mFramesBeingEncoded s with
  | _ :: _ =>
      emit (LogWaiting (Z.of_nat (List.length (mFramesBeingEncoded s)))) ;;
      wait FrameCompleteCondition
  | [] =>
      modify (set_mCamera false) ;;
      (if mCollectStats s
       then emit (LogStats (mNumFramesReceived s) (mNumFramesEncoded s)
                    (mNumFramesDropped s)
                    (sub64 (mLastFrameTimestampUs s) (mFirstFrameTimeUs s)))
       else ret tt) ;;
      CHECK (mNumFramesReceived s
             =? add32 (mNumFramesEncoded s) (mNumFramesDropped s))
        checkMessage ;;
      ret OK
  end.

Definition stop : M status_t := stop_begin ;; stop_drain.

(** Lines 261-276: the scan of [mFramesBeingEncoded]; [visited] are the
    entries already passed over. *)
Fixpoint signalBufferReturned_scan (buffer : MediaBuffer)
    (visited rest : list IMemory) : M unit :=
  match rest with
  | [] => CHECK false "signalBufferReturned: bogus buffer"
  | it :: rest' =>
      if pointer it =? data buffer then
        releaseOneRecordingFrame it ;;
        modify (set_mFramesBeingEncoded (visited ++ rest')) ;;
        modify (fun s => set_mNumFramesEncoded (inc32 (mNumFramesEncoded s)) s) ;;
        emit (MediaBufferRelease (data buffer)) ;;
        emit SignalFrameComplete
      else signalBufferReturned_scan buffer (visited ++ [it]) rest'
  end.

Definition signalBufferReturned (buffer : MediaBuffer) : M unit :=
  s <- get ;; signalBufferReturned_scan buffer [] (mFramesBeingEncoded s).

(** Lines 278-314.  The result is the status and [*buffer].  With the
    source started and nothing queued the caller blocks on
    [mFrameAvailableCondition]; it resumes by evaluating the loop
    condition again. *)
Definition read (options : option ReadOptions)
  : M (status_t * option MediaBuffer) :=
  match options with
  | Some {| getSeekTo := Some _ |} => ret (ERROR_UNSUPPORTED, None)
  | _ =>
      s <- get ;;
      match mStarted s, mFramesReceived s with
      | true, [] => wait FrameAvailableCondition
      | false, _ => ret (OK, None)
      | true, frame :: frames =>
          modify (set_mFramesReceived frames) ;;
          match mFrameTimes s with
          | [] => fail EmptyList
          | frameTime :: times =>
              modify (set_mFrameTimes times) ;;
              modify (fun s' => set_mFramesBeingEncoded
                                  (mFramesBeingEncoded s' ++ [frame]) s') ;;
              ret (OK, Some {| data := pointer frame;
                               range_length := size frame;
                               meta_kKeyTime := frameTime |})
          end
      end
  end.

(** Lines 327-333: the glitch test. *)
Definition detectGlitch (timestampUs : Z) : M unit :=
  s <- get ;;
  if (mNumFramesReceived s >? 0)
     && (sub64 timestampUs (mLastFrameTimestampUs s)
         >? mGlitchDurationThresholdUs s)
  then
    (if Z.rem (mNumGlitches s) glitchLogPeriod =? 0
     then emit LogLongDelay else ret tt) ;;
    modify (set_mNumGlitches (inc32 (mNumGlitches s)))
  else ret tt.

(** Lines 342-355; the answer is [true] when the frame was released and
    the callback returns at line 351. *)
Definition firstFrameGate (timestampUs : Z) (frame : IMemory) : M bool :=
  modify (set_mLastFrameTimestampUs timestampUs) ;;
  s <- get ;;
  if mNumFramesReceived s =? 0 then
    modify (set_mFirstFrameTimeUs timestampUs) ;;
    if mStartTimeUs s >? 0 then
      if timestampUs <? mStartTimeUs s then
        releaseOneRecordingFrame frame ;; ret true
      else
        modify (set_mStartTimeUs (sub64 timestampUs (mStartTimeUs s))) ;;
        ret false
    else ret false
  else ret false.

(** Lines 356-363. *)
Definition queueFrame (timestampUs : Z) (frame : IMemory) : M unit :=
  modify (fun s => set_mNumFramesReceived (inc32 (mNumFramesReceived s)) s) ;;
  modify (fun s => set_mFramesReceived (mFramesReceived s ++ [frame]) s) ;;
  s <- get ;;
  let timeUs :=
    add64 (mStartTimeUs s) (sub64 timestampUs (mFirstFrameTimeUs s)) in
  modify (set_mFrameTimes (mFrameTimes s ++ [timeUs])) ;;
  emit SignalFrameAvailable.

(** Lines 316-364. *)
Definition dataCallbackTimestamp (timestampUs : Z) (frame : IMemory)
  : M unit :=
  s <- get ;;
  if negb (mStarted s) then
    releaseOneRecordingFrame frame ;;
    modify (fun s => set_mNumFramesReceived (inc32 (mNumFramesReceived s)) s) ;;
    modify (fun s => set_mNumFramesDropped (inc32 (mNumFramesDropped s)) s)
  else
    detectGlitch timestampUs ;;
    if skipCurrentFrame timestampUs then
      releaseOneRecordingFrame frame
    else
      released <- firstFrameGate timestampUs frame ;;
      if released then ret tt else queueFrame timestampUs frame.

(** [postDataTimestamp], lines 75-82: the listener passes the camera's
    nanosecond timestamp on in microseconds. *)
Definition postDataTimestamp (timestamp : Z) (frame : IMemory) : M unit :=
  dataCallbackTimestamp (Z.quot timestamp 1000) frame.

End Members.

(** ** Runs

    A run is the sequence of member-function calls in the order the lock
    serialises them.  A call that blocks leaves the object as it was when
    the caller went to sleep; a blocked [read] resumes as a new [Read], a
    blocked [stop] as [StopResumed].  A fault ends the run. *)

Inductive call :=
| Start (recordStats : bool) (meta : option MetaData) (cameraStatus : status_t)
| DataCallbackTimestamp (timestampUs : Z) (frame : IMemory)
| Read (options : option ReadOptions)
| SignalBufferReturned (buffer : MediaBuffer)
| Stop
| StopResumed.

(** The object a call leaves behind. *)
Definition after {A} (r : result A) : option CameraSource :=
  match r with
  | Ret _ s _ => Some s
  | Wait _ s _ => Some s
  | Fault _ => None
  end.

Definition perform (skipCurrentFrame : Z -> bool) (c : call)
    (s : CameraSource) : option CameraSource :=
  match c with
  | Start recordStats meta cameraStatus =>
      after (start recordStats meta cameraStatus s)
  | DataCallbackTimestamp timestampUs frame =>
      after (dataCallbackTimestamp skipCurrentFrame timestampUs frame s)
  | Read options => after (read options s)
  | SignalBufferReturned buffer => after (signalBufferReturned buffer s)
  | Stop => after (stop s)
  | StopResumed => after (stop_drain s)
  end.

Fixpoint exec (skipCurrentFrame : Z -> bool) (calls : list call)
    (s : CameraSource) : option CameraSource :=
  match calls with
  | [] => Some s
  | c :: calls' =>
      match perform skipCurrentFrame c s with
      | Some s' => exec skipCurrentFrame calls' s'
      | None => None
      end
  end.

Definition is_Start (c : call) : bool :=
  match c with Start _ _ _ => true | _ => false end.

(** The base class's [skipCurrentFrame]. *)
Definition skipNone (timestampUs : Z) : bool := false.

(** The frame accounting behind the check at the end of [stop]: every
    frame counted as received is encoded, dropped, queued or with the
    encoder.  The counters are [int32_t], so the sum is taken modulo
    2^32. *)
Definition accounted (s : CameraSource) : Prop :=
  in32 (mNumFramesReceived s) /\
  (mNumFramesReceived s) mod 2 ^ 32 =
  (mNumFramesEncoded s + mNumFramesDropped s
   + Z.of_nat (List.length (mFramesReceived s))
   + Z.of_nat (List.length (mFramesBeingEncoded s))) mod 2 ^ 32.

(** What [stop_begin] establishes and a concurrent [start] alone undoes. *)
Definition stopping (s : CameraSource) : Prop :=
  mStarted s = false /\ mFramesReceived s = [].

(** The pending queue pairs frames with times. *)
Definition paired (s : CameraSource) : Prop :=
  List.length (mFramesReceived s) = List.length (mFrameTimes s).

(** The glitch test of lines 327-328. *)
Definition glitch (timestampUs : Z) (s : CameraSource) : bool :=
  (mNumFramesReceived s >? 0)
  && (sub64 timestampUs (mLastFrameTimestampUs s)
      >? mGlitchDurationThresholdUs s).

(** ** Objects and frames of the scenarios *)

(** A source on a 30 fps camera, as the constructor leaves it. *)
Definition source30 : CameraSource :=
  mkCameraSource true 0 0 0 false [] [] [] 0 0 0 0 200000 false.

Definition frameA : IMemory := {| pointer := 4096; size := 64 |}.
Definition frameB : IMemory := {| pointer := 8192; size := 64 |}.
Definition frameC : IMemory := {| pointer := 12288; size := 64 |}.

Definition startAt (t : Z) : call :=
  Start false (Some {| findInt64_kKeyTime := Some t |}) OK.


(** Frames at 0, 50 ms and 260 ms on a 30 fps source. *)
Definition glitchScenario : list call :=
  [Start false None OK;
   DataCallbackTimestamp 0 frameA;
   DataCallbackTimestamp 50000 frameB;
   DataCallbackTimestamp 260000 frameC].

(** A hook that keeps the frame at time 0 and skips every later one. *)
Definition skipLater (timestampUs : Z) : bool := timestampUs >? 0.

(** ** The first part of start *)

(** [start], lines 182-197: everything before [startCameraRecording] is
    called at line 198. *)
Definition start_prologue (recordStats : bool) (meta : option MetaData)
  : M unit :=
  s <- get ;;
  CHECK (negb (mStarted s)) "!mStarted" ;;
  (if recordStats then modify (set_mCollectStats true) else ret tt) ;;
  modify (set_mStartTimeUs 0) ;;
  match meta with
  | Some {| findInt64_kKeyTime := Some startTimeUs |} =>
      modify (set_mStartTimeUs startTimeUs)
  | _ => ret tt
  end ;;
  camera (SetListener true).

(** ** The destructor and what a run shows to the outside *)

(** [~CameraSource], lines 171-175: a source that is still started is
    stopped. *)
Definition delete_CameraSource : M unit :=
  s <- get ;; if mStarted s then stop ;; ret tt else ret tt.

(** The calls on the collaborators a call has made when it returns or
    goes to sleep. *)
Definition effects_of {A} (r : result A) : list effect :=
  match r with
  | Ret _ _ tr => tr
  | Wait _ _ tr => tr
  | Fault _ => []
  end.

Definition perform_effects (skipCurrentFrame : Z -> bool) (c : call)
    (s : CameraSource) : list effect :=
  match c with
  | Start recordStats meta cameraStatus =>
      effects_of (start recordStats meta cameraStatus s)
  | DataCallbackTimestamp timestampUs frame =>
      effects_of (dataCallbackTimestamp skipCurrentFrame timestampUs frame s)
  | Read options => effects_of (read options s)
  | SignalBufferReturned buffer => effects_of (signalBufferReturned buffer s)
  | Stop => effects_of (stop s)
  | StopResumed => effects_of (stop_drain s)
  end.

(** The trace of a run. *)
Fixpoint exec_effects (skipCurrentFrame : Z -> bool) (calls : list call)
    (s : CameraSource) : list effect :=
  match calls with
  | [] => []
  | c :: calls' =>
      perform_effects skipCurrentFrame c s
      ++ match perform skipCurrentFrame c s with
         | Some s' => exec_effects skipCurrentFrame calls' s'
         | None => []
         end
  end.

(** The buffer a call hands to the consumer: [*buffer] of a [read]. *)
Definition perform_buffer (c : call) (s : CameraSource) : list MediaBuffer :=
  match c with
  | Read options =>
      match read options s with
      | Ret (_, Some buffer) _ _ => [buffer]
      | _ => []
      end
  | _ => []
  end.

(** The buffers handed to the consumer in a run, in order. *)
Fixpoint exec_buffers (skipCurrentFrame : Z -> bool) (calls : list call)
    (s : CameraSource) : list MediaBuffer :=
  match calls with
  | [] => []
  | c :: calls' =>
      perform_buffer c s
      ++ match perform skipCurrentFrame c s with
         | Some s' => exec_buffers skipCurrentFrame calls' s'
         | None => []
         end
  end.

(** The frames handed back to the camera in a trace. *)
Definition released (tr : list effect) : list IMemory :=
  flat_map (fun e => match e with
                     | ReleaseRecordingFrame frame => [frame]
                     | _ => []
                     end) tr.

(** The frames the camera delivers in a run. *)
Definition delivered (calls : list call) : list IMemory :=
  flat_map (fun c => match c with
                     | DataCallbackTimestamp _ frame => [frame]
                     | _ => []
                     end) calls.

(** The [MediaBuffer] that [read] builds for a frame and its time, lines
    308-311. *)
Definition bufferOf (frame : IMemory) (timeUs : Z) : MediaBuffer :=
  {| data := pointer frame; range_length := size frame;
     meta_kKeyTime := timeUs |}.

Definition is_Stop (c : call) : bool :=
  match c with Stop | StopResumed => true | _ => false end.

(** [read] finds a time for every queued frame. *)
Definition times_cover (s : CameraSource) : Prop :=
  (List.length (mFramesReceived s) <= List.length (mFrameTimes s))%nat.

Definition IMemory_eq_dec (x y : IMemory) : {x = y} + {x <> y}.
Proof. decide equality; apply Z.eq_dec. Defined.

(** The object after [dataCallbackTimestamp] has queued a frame: lines
    327-333 and 342-360 in one record. *)
Definition queued (timestampUs : Z) (frame : IMemory) (s : CameraSource)
  : CameraSource :=
  let first := mNumFramesReceived s =? 0 in
  let startTimeUs :=
    if first && (mStartTimeUs s >? 0)
    then sub64 timestampUs (mStartTimeUs s) else mStartTimeUs s in
  let firstFrameTimeUs :=
    if first then timestampUs else mFirstFrameTimeUs s in
  mkCameraSource (mCamera s) startTimeUs (inc32 (mNumFramesReceived s))
    timestampUs (mStarted s) (mFramesReceived s ++ [frame])
    (mFramesBeingEncoded s)
    (mFrameTimes s
     ++ [add64 startTimeUs (sub64 timestampUs firstFrameTimeUs)])
    firstFrameTimeUs (mNumFramesEncoded s) (mNumFramesDropped s)
    (if glitch timestampUs s then inc32 (mNumGlitches s)
     else mNumGlitches s)
    (mGlitchDurationThresholdUs s) (mCollectStats s).

(** The calls of the camera for a list of frames with their timestamps. *)
Definition arrive (arrivals : list (Z * IMemory)) : list call :=
  map (fun a => DataCallbackTimestamp (fst a) (snd a)) arrivals.

(** * Proofs *)

(** ** Wrap-around *)

Lemma wrap32_unfold z :
  wrap32 z = (z + 2147483648) mod 4294967296 - 2147483648.
Proof. reflexivity. Qed.

Lemma wrap64_unfold z :
  wrap64 z = (z + 9223372036854775808) mod 18446744073709551616
             - 9223372036854775808.
Proof. reflexivity. Qed.

Lemma in32_bounds z : in32 z <-> -2147483648 <= z <= 2147483647.
Proof. unfold in32, INT32_MAX. simpl. lia. Qed.

Lemma in64_bounds z :
  in64 z <-> -9223372036854775808 <= z <= 9223372036854775807.
Proof. unfold in64, INT64_MAX. simpl. lia. Qed.

Lemma wrap32_id z : in32 z -> wrap32 z = z.
Proof.
  rewrite in32_bounds, wrap32_unfold. intros H.
  rewrite Z.mod_small by lia. lia.
Qed.

Lemma wrap64_id z : in64 z -> wrap64 z = z.
Proof.
  rewrite in64_bounds, wrap64_unfold. intros H.
  rewrite Z.mod_small by lia. lia.
Qed.

Lemma wrap32_in32 z : in32 (wrap32 z).
Proof.
  rewrite in32_bounds, wrap32_unfold.
  pose proof (Z.mod_pos_bound (z + 2147483648) 4294967296 eq_refl). lia.
Qed.

(** Wrapping changes a value by a multiple of 2^32. *)
Lemma wrap32_ex z : exists k, wrap32 z = z + k * 4294967296.
Proof.
  exists (- ((z + 2147483648) / 4294967296)).
  rewrite wrap32_unfold, Z.mod_eq by lia. lia.
Qed.

Lemma inc32_ex x : exists k, inc32 x = x + 1 + k * 4294967296.
Proof. apply wrap32_ex. Qed.

Lemma inc32_succ x : -2147483648 <= x < INT32_MAX -> inc32 x = x + 1.
Proof.
  intros H. apply wrap32_id. rewrite in32_bounds.
  unfold INT32_MAX in H. simpl in H. lia.
Qed.

Lemma iter_inc32_ex n x :
  exists k, Nat.iter n inc32 x = x + Z.of_nat n + k * 4294967296.
Proof.
  induction n as [|n [k IH]].
  - exists 0. cbn. lia.
  - rewrite Nat.iter_succ, IH.
    destruct (inc32_ex (x + Z.of_nat n + k * 4294967296)) as [k' ->].
    exists (k + k'). lia.
Qed.

(** Arithmetic on wrapped values, by linear arithmetic over the
    quotients and remainders. *)
Ltac wrap_lia :=
  unfold in32, in64, INT32_MAX, INT64_MAX, inc32, add32, add64, sub64 in *;
  rewrite ?wrap32_unfold, ?wrap64_unfold in *;
  change (2 ^ 32) with 4294967296 in *;
  change (2 ^ 31) with 2147483648 in *;
  change (2 ^ 63) with 9223372036854775808 in *;
  Z.to_euclidean_division_equations; lia.

(** ** Running the monad *)

Arguments set_mCamera v s /.
Arguments set_mStartTimeUs v s /.
Arguments set_mNumFramesReceived v s /.
Arguments set_mLastFrameTimestampUs v s /.
Arguments set_mStarted v s /.
Arguments set_mFramesReceived v s /.
Arguments set_mFramesBeingEncoded v s /.
Arguments set_mFrameTimes v s /.
Arguments set_mFirstFrameTimeUs v s /.
Arguments set_mNumFramesEncoded v s /.
Arguments set_mNumFramesDropped v s /.
Arguments set_mNumGlitches v s /.
Arguments set_mCollectStats v s /.

Ltac unfold_monad :=
  cbv [bind ret get modify emit fail wait camera CHECK
       releaseRecordingFrame releaseOneRecordingFrame
       startCameraRecording stopCameraRecording] in *.

(** Case analysis on whatever the computation branches on next. *)
Ltac break_branch :=
  match goal with
  | |- context [match ?x with _ => _ end] =>
      lazymatch x with
      | context [match _ with _ => _ end] => fail
      | _ => destruct x eqn:?
      end
  | H : context [match ?x with _ => _ end] |- _ =>
      lazymatch x with
      | context [match _ with _ => _ end] => fail
      | _ => destruct x eqn:?
      end
  end.

Ltac step_monad := unfold_monad; cbn in *.

(** ** The loops *)

Lemma releaseQueuedFrames_loop_live frames :
  forall s, mCamera s = true ->
    releaseQueuedFrames_loop frames s =
    Ret tt
      match frames with
      | [] => s
      | _ :: _ =>
          set_mNumFramesDropped
            (Nat.iter (List.length frames) inc32 (mNumFramesDropped s))
            (set_mFramesReceived [] s)
      end
      (map ReleaseRecordingFrame frames).
Proof.
  induction frames as [|it rest IH]; intros s Hcam.
  - reflexivity.
  - destruct s; cbn in Hcam; subst.
    cbn [releaseQueuedFrames_loop]. unfold_monad. cbn -[Nat.iter].
    rewrite IH by reflexivity. cbn -[Nat.iter].
    destruct rest as [|it' rest']; [reflexivity|].
    rewrite (Nat.iter_succ_r (List.length (it' :: rest'))). reflexivity.
Qed.

Lemma releaseQueuedFrames_live s :
  mCamera s = true ->
  releaseQueuedFrames s =
  Ret tt
    (set_mNumFramesDropped
       (Nat.iter (List.length (mFramesReceived s)) inc32 (mNumFramesDropped s))
       (set_mFramesReceived [] s))
    (map ReleaseRecordingFrame (mFramesReceived s)).
Proof.
  intros Hcam. unfold releaseQueuedFrames. step_monad.
  rewrite releaseQueuedFrames_loop_live by assumption.
  destruct s as [? ? ? ? ? q ? ? ? ? ? ? ? ?]; cbn in *.
  destruct q; reflexivity.
Qed.

(** The scan stops at the first entry whose address is the buffer's. *)
Lemma signalBufferReturned_scan_found buffer before it after :
  forall visited s,
    pointer it = data buffer ->
    (forall x, In x before -> pointer x <> data buffer) ->
    signalBufferReturned_scan buffer visited (before ++ it :: after) s =
    if mCamera s then
      Ret tt
        (set_mNumFramesEncoded (inc32 (mNumFramesEncoded s))
           (set_mFramesBeingEncoded (visited ++ before ++ after) s))
        [ReleaseRecordingFrame it; MediaBufferRelease (data buffer);
         SignalFrameComplete]
    else Fault NullCamera.
Proof.
  induction before as [|x before IH]; intros visited s Hit Hbefore.
  - destruct s as [[|] ? ? ? ? ? ? ? ? ? ? ? ? ?];
      cbn; rewrite Hit, Z.eqb_refl; unfold_monad; reflexivity.
  - cbn [app signalBufferReturned_scan].
    destruct (pointer x =? data buffer) eqn:Hx.
    + apply Z.eqb_eq in Hx. exfalso.
      apply (Hbefore x); [left; reflexivity|exact Hx].
    + rewrite IH; try assumption.
      * rewrite <- app_assoc. reflexivity.
      * intros y Hy. apply Hbefore. right. exact Hy.
Qed.

Lemma signalBufferReturned_scan_bogus buffer rest :
  forall visited s,
    (forall x, In x rest -> pointer x <> data buffer) ->
    signalBufferReturned_scan buffer visited rest s =
    Fault (CheckFailed "signalBufferReturned: bogus buffer").
Proof.
  induction rest as [|x rest IH]; intros visited s Hrest.
  - reflexivity.
  - cbn [signalBufferReturned_scan].
    destruct (pointer x =? data buffer) eqn:Hx.
    + apply Z.eqb_eq in Hx. exfalso. apply (Hrest x); [left; reflexivity|exact Hx].
    + apply IH. intros y Hy. apply Hrest. right. exact Hy.
Qed.

(** A list with an entry for the address splits at the first such entry. *)
Lemma first_match (p : Z) (l : list IMemory) :
  (exists x, In x l /\ pointer x = p) ->
  exists before it after,
    l = before ++ it :: after /\ pointer it = p /\
    (forall x, In x before -> pointer x <> p).
Proof.
  induction l as [|a l IH]; intros [x [Hin Hx]].
  - destruct Hin.
  - destruct (Z.eq_dec (pointer a) p) as [Ha|Ha].
    + exists [], a, l. split; [reflexivity|]. split; [exact Ha|]. intros ? [].
    + destruct Hin as [->|Hin]; [contradiction|].
      destruct IH as (before & it & after & -> & Hit & Hb); [eauto|].
      exists (a :: before), it, after. split; [reflexivity|].
      split; [exact Hit|]. intros y [<-|Hy]; auto.
Qed.

Lemma match_or_bogus (p : Z) (l : list IMemory) :
  (exists x, In x l /\ pointer x = p) \/
  (forall x, In x l -> pointer x <> p).
Proof.
  induction l as [|a l [IH|IH]].
  - right. intros ? [].
  - left. destruct IH as [x [Hin Hx]]. exists x. split; [right|]; assumption.
  - destruct (Z.eq_dec (pointer a) p) as [Ha|Ha].
    + left. exists a. split; [left; reflexivity|exact Ha].
    + right. intros x [<-|Hx]; auto.
Qed.

(** ** What each call leaves behind *)

Lemma signalBufferReturned_after buffer s s' :
  after (signalBufferReturned buffer s) = Some s' ->
  exists before it rest,
    mFramesBeingEncoded s = before ++ it :: rest /\
    pointer it = data buffer /\
    s' = set_mNumFramesEncoded (inc32 (mNumFramesEncoded s))
           (set_mFramesBeingEncoded (before ++ rest) s).
Proof.
  unfold signalBufferReturned. unfold_monad. cbn. intros H.
  destruct (match_or_bogus (data buffer) (mFramesBeingEncoded s)) as [Hm|Hb].
  - destruct (first_match _ _ Hm) as (before & it & rest & Hsplit & Hit & Hbefore).
    exists before, it, rest. split; [exact Hsplit|]. split; [exact Hit|].
    rewrite Hsplit, (signalBufferReturned_scan_found _ _ _ _ [] s Hit Hbefore) in H.
    destruct s as [[|] ? ? ? ? ? ? ? ? ? ? ? ? ?]; cbn in H |- *;
      [congruence|discriminate].
  - rewrite (signalBufferReturned_scan_bogus _ _ [] s Hb) in H. discriminate.
Qed.

Lemma stop_begin_live s :
  mCamera s = true ->
  stop_begin s =
  Ret tt
    (set_mNumFramesDropped
       (Nat.iter (List.length (mFramesReceived s)) inc32 (mNumFramesDropped s))
       (set_mFramesReceived [] (set_mStarted false s)))
    (SignalFrameAvailable :: SetListener false :: StopRecording
     :: map ReleaseRecordingFrame (mFramesReceived s)).
Proof.
  intros Hcam. unfold stop_begin.
  pose proof (releaseQueuedFrames_live (set_mStarted false s)) as Hq.
  destruct s; cbn in Hcam; subst. unfold_monad. cbn -[Nat.iter] in *.
  rewrite Hq by reflexivity. reflexivity.
Qed.

Lemma stop_begin_null s :
  mCamera s = false -> stop_begin s = Fault NullCamera.
Proof.
  intros Hcam. destruct s; cbn in Hcam; subst. reflexivity.
Qed.

(** [stop_drain] returns only through the check. *)
Lemma stop_drain_Ret s st s' tr :
  stop_drain s = Ret st s' tr ->
  st = OK /\ s' = set_mCamera false s /\ mFramesBeingEncoded s = [] /\
  mNumFramesReceived s = add32 (mNumFramesEncoded s) (mNumFramesDropped s).
Proof.
  destruct s as [cam t0 r l st0 q [|f enc] ts f0 e d g thr [|]];
    unfold stop_drain; unfold_monad; cbn; try discriminate;
    destruct (r =? add32 e d) eqn:Hc; cbn; intros H; try discriminate;
    apply Z.eqb_eq in Hc; inversion H; subst; repeat split; reflexivity.
Qed.

Lemma stop_drain_Wait s c s' tr :
  stop_drain s = Wait c s' tr ->
  c = FrameCompleteCondition /\ s' = s /\ mFramesBeingEncoded s <> [].
Proof.
  destruct s as [cam t0 r l st0 q [|f enc] ts f0 e d g thr [|]];
    unfold stop_drain; unfold_monad; cbn;
    try (destruct (r =? add32 e d); cbn; discriminate);
    intros H; inversion H; subst; repeat split; discriminate.
Qed.

(** With nothing left with the encoder, [stop_drain] returns when the
    counters agree and fails the check when they do not. *)
Lemma stop_drain_drained s :
  mFramesBeingEncoded s = [] ->
  (mNumFramesReceived s = add32 (mNumFramesEncoded s) (mNumFramesDropped s) ->
   exists tr, stop_drain s = Ret OK (set_mCamera false s) tr) /\
  (mNumFramesReceived s <> add32 (mNumFramesEncoded s) (mNumFramesDropped s) ->
   stop_drain s = Fault (CheckFailed checkMessage)).
Proof.
  destruct s as [cam t0 r l st0 q enc ts f0 e d g thr stats]; cbn.
  intros ->. unfold stop_drain. unfold_monad. cbn. split.
  - intros Heq. apply Z.eqb_eq in Heq.
    destruct stats; cbn; rewrite Heq; cbn; eexists; reflexivity.
  - intros Hne. apply Z.eqb_neq in Hne.
    destruct stats; cbn; rewrite Hne; reflexivity.
Qed.

Lemma stop_after s s' :
  after (stop s) = Some s' ->
  exists s1 tr1,
    stop_begin s = Ret tt s1 tr1 /\ mCamera s = true /\
    (s' = s1 \/ s' = set_mCamera false s1).
Proof.
  unfold stop. intros H.
  destruct (mCamera s) eqn:Hcam.
  - pose proof (stop_begin_live s Hcam) as Hb.
    unfold bind in H. rewrite Hb in H.
    eexists _, _. split; [exact Hb|]. split; [reflexivity|].
    match type of H with
    | context [stop_drain ?s1] =>
        destruct (stop_drain s1) as [st s2 tr2| |c s2 tr2] eqn:Hd
    end; cbn in H.
    + apply stop_drain_Ret in Hd. destruct Hd as (_ & -> & _). right. congruence.
    + discriminate.
    + apply stop_drain_Wait in Hd. destruct Hd as (_ & -> & _). left. congruence.
  - unfold bind in H. rewrite (stop_begin_null s Hcam) in H. discriminate.
Qed.

(** ** Invariants of runs *)

Ltac open_state s :=
  destruct s as [cam t0 r l started q enc ts f0 e d g thr stats]; cbn in *.

Ltac close_after :=
  match goal with
  | H : after _ = Some _ |- _ => cbn in H; try discriminate H;
                                 injection H as <-
  | H : Some _ = Some _ |- _ => injection H as <-
  | H : None = Some _ |- _ => discriminate H
  end.

Ltac run_call :=
  unfold dataCallbackTimestamp, detectGlitch, firstFrameGate, queueFrame,
    read, start in *;
  unfold_monad; cbn in *;
  repeat (break_branch; cbn in *; try discriminate).

Lemma accounted_new frameRate t0 s :
  new_CameraSource frameRate t0 = Some s -> accounted s.
Proof.
  unfold new_CameraSource. destruct (frameRate =? 0); [discriminate|].
  intros H. injection H as <-. unfold accounted. cbn. split; wrap_lia.
Qed.

Lemma accounted_dataCallbackTimestamp skip timestampUs frame s s' :
  accounted s ->
  after (dataCallbackTimestamp skip timestampUs frame s) = Some s' ->
  accounted s'.
Proof.
  open_state s. unfold accounted; cbn. intros [Hr Hacc] H.
  run_call; close_after; cbn; rewrite ?length_app, ?Nat2Z.inj_add; cbn;
    split; wrap_lia.
Qed.

Lemma accounted_read options s s' :
  accounted s -> after (read options s) = Some s' -> accounted s'.
Proof.
  open_state s. unfold accounted; cbn. intros [Hr Hacc] H.
  run_call; close_after; cbn in *; rewrite ?length_app, ?Nat2Z.inj_add;
    cbn [List.length] in *; split; wrap_lia.
Qed.

Lemma accounted_start recordStats meta cameraStatus s s' :
  accounted s ->
  after (start recordStats meta cameraStatus s) = Some s' -> accounted s'.
Proof.
  open_state s. unfold accounted; cbn. intros [Hr Hacc] H.
  run_call; close_after; cbn; split; assumption.
Qed.

Lemma accounted_signalBufferReturned buffer s s' :
  accounted s -> after (signalBufferReturned buffer s) = Some s' ->
  accounted s'.
Proof.
  intros [Hr Hacc] H.
  apply signalBufferReturned_after in H.
  destruct H as (before & it & rest & Hsplit & _ & ->).
  open_state s. subst enc. unfold accounted; cbn.
  rewrite !length_app in *. cbn [List.length] in *.
  rewrite !Nat2Z.inj_add, ?Nat2Z.inj_succ in *. split; wrap_lia.
Qed.

Lemma accounted_stop_drain s s' :
  accounted s -> after (stop_drain s) = Some s' -> accounted s'.
Proof.
  intros Hacc H.
  destruct (stop_drain s) as [a s1 tr| |c s1 tr] eqn:Hd; cbn in H;
    try discriminate; injection H as <-.
  - apply stop_drain_Ret in Hd. destruct Hd as (_ & -> & _). exact Hacc.
  - apply stop_drain_Wait in Hd. destruct Hd as (_ & -> & _). exact Hacc.
Qed.

Lemma accounted_stop_begin s s1 tr1 :
  accounted s -> stop_begin s = Ret tt s1 tr1 -> accounted s1.
Proof.
  intros [Hr Hacc] H.
  destruct (mCamera s) eqn:Hcam;
    [rewrite (stop_begin_live s Hcam) in H
    |rewrite (stop_begin_null s Hcam) in H; discriminate].
  injection H as <- _.
  destruct (iter_inc32_ex (List.length (mFramesReceived s))
              (mNumFramesDropped s)) as [k Hk].
  open_state s. unfold accounted; cbn -[Nat.iter]. rewrite Hk.
  split; wrap_lia.
Qed.

Lemma accounted_stop s s' :
  accounted s -> after (stop s) = Some s' -> accounted s'.
Proof.
  intros Hacc H. apply stop_after in H.
  destruct H as (s1 & tr1 & Hb & _ & [->| ->]);
    apply (accounted_stop_begin _ _ _ Hacc) in Hb; exact Hb.
Qed.

Lemma accounted_perform skip c s s' :
  accounted s -> perform skip c s = Some s' -> accounted s'.
Proof.
  destruct c; cbn [perform];
    eauto using accounted_start, accounted_dataCallbackTimestamp,
      accounted_read, accounted_signalBufferReturned, accounted_stop,
      accounted_stop_drain.
Qed.

Lemma accounted_exec skip calls :
  forall s s', accounted s -> exec skip calls s = Some s' -> accounted s'.
Proof.
  induction calls as [|c calls IH]; cbn [exec]; intros s s' Hacc H.
  - injection H as <-. exact Hacc.
  - destruct (perform skip c s) as [s1|] eqn:Hc; [|discriminate].
    eapply IH; [|exact H]. eapply accounted_perform; eassumption.
Qed.

(** Between [stop_begin] and the end of [stop] nothing is queued, unless
    another thread calls [start]. *)
Lemma stopping_perform skip c s s' :
  stopping s -> is_Start c = false -> perform skip c s = Some s' ->
  stopping s'.
Proof.
  intros [Hst Hq] Hc H. destruct c; cbn in Hc; try discriminate;
    cbn [perform] in H.
  - open_state s. subst. unfold stopping. run_call; close_after; cbn; auto.
  - open_state s. subst. unfold stopping. run_call; close_after; cbn; auto.
  - apply signalBufferReturned_after in H.
    destruct H as (before & it & rest & _ & _ & ->).
    open_state s. unfold stopping. cbn. auto.
  - apply stop_after in H. destruct H as (s1 & tr1 & Hb & Hcam & Hs').
    rewrite (stop_begin_live s Hcam) in Hb. injection Hb as <- _.
    destruct Hs' as [->| ->]; unfold stopping; cbn; auto.
  - destruct (stop_drain s) as [a s1 tr| |c s1 tr] eqn:Hd; cbn in H;
      try discriminate; injection H as <-.
    + apply stop_drain_Ret in Hd. destruct Hd as (_ & -> & _).
      unfold stopping; cbn; auto.
    + apply stop_drain_Wait in Hd. destruct Hd as (_ & -> & _).
      unfold stopping; auto.
Qed.

Lemma stopping_exec skip calls :
  forall s s',
    stopping s ->
    forallb (fun c => negb (is_Start c)) calls = true ->
    exec skip calls s = Some s' -> stopping s'.
Proof.
  induction calls as [|c calls IH]; cbn [exec forallb]; intros s s' Hs Hn H.
  - injection H as <-. exact Hs.
  - apply andb_true_iff in Hn. destruct Hn as [Hc Hn].
    destruct (perform skip c s) as [s1|] eqn:Hp; [|discriminate].
    eapply IH; [|exact Hn|exact H].
    eapply stopping_perform; [exact Hs| |exact Hp].
    destruct (is_Start c); [discriminate|reflexivity].
Qed.

(** With nothing queued and nothing with the encoder, the accounting is
    the equation [stop] checks. *)
Lemma accounted_drained s :
  accounted s -> mFramesReceived s = [] -> mFramesBeingEncoded s = [] ->
  mNumFramesReceived s = add32 (mNumFramesEncoded s) (mNumFramesDropped s).
Proof.
  intros [Hr Hacc] Hq Henc. rewrite Hq, Henc in Hacc.
  cbn [List.length Z.of_nat] in Hacc. wrap_lia.
Qed.

Lemma stop_begin_stopping s s1 tr1 :
  stop_begin s = Ret tt s1 tr1 -> stopping s1.
Proof.
  intros H. destruct (mCamera s) eqn:Hcam;
    [rewrite (stop_begin_live s Hcam) in H
    |rewrite (stop_begin_null s Hcam) in H; discriminate].
  injection H as <- _. unfold stopping; cbn; auto.
Qed.

Lemma stop_Ret s st s' tr :
  stop s = Ret st s' tr ->
  st = OK /\
  mNumFramesReceived s' = add32 (mNumFramesEncoded s') (mNumFramesDropped s').
Proof.
  unfold stop, bind. destruct (stop_begin s) as [[] s1 tr1| |]; try discriminate.
  destruct (stop_drain s1) as [st2 s2 tr2| |] eqn:Hd; try discriminate.
  intros H. injection H as <- <- _.
  apply stop_drain_Ret in Hd. destruct Hd as (-> & -> & _ & Heq).
  split; [reflexivity|exact Heq].
Qed.

(** ** C1: the check at the end of stop *)

(** C1.  Whenever [stop], entered afresh or resumed after waiting for the
    encoder, returns, it returns OK and the received counter equals the
    encoded counter plus the dropped counter (the [int32_t] sum, and the
    plain sum when that fits).  A disagreement at that point is a failed
    CHECK_EQ: [stop] faults and does not return.  In every run of a
    constructed source, once the encoder has returned its frames and no
    thread called [start] meanwhile, the check holds and [stop] returns. *)
Theorem stop_checks_frame_accounting :
  (forall s st s' tr,
      stop s = Ret st s' tr \/ stop_drain s = Ret st s' tr ->
      st = OK /\
      mNumFramesReceived s'
      = add32 (mNumFramesEncoded s') (mNumFramesDropped s') /\
      (in32 (mNumFramesEncoded s' + mNumFramesDropped s') ->
       mNumFramesReceived s' = mNumFramesEncoded s' + mNumFramesDropped s')) /\
  (forall s,
      mFramesBeingEncoded s = [] ->
      mNumFramesReceived s
      <> add32 (mNumFramesEncoded s) (mNumFramesDropped s) ->
      stop_drain s = Fault (CheckFailed checkMessage)) /\
  (forall s s1 tr1,
      stop_begin s = Ret tt s1 tr1 ->
      mFramesBeingEncoded s1 = [] ->
      mNumFramesReceived s1
      <> add32 (mNumFramesEncoded s1) (mNumFramesDropped s1) ->
      stop s = Fault (CheckFailed checkMessage)) /\
  (forall skip frameRate t0 s0 before s1 s2 during s3,
      new_CameraSource frameRate t0 = Some s0 ->
      exec skip before s0 = Some s1 ->
      after (stop s1) = Some s2 ->
      forallb (fun c => negb (is_Start c)) during = true ->
      exec skip during s2 = Some s3 ->
      mFramesBeingEncoded s3 = [] ->
      exists tr, stop_drain s3 = Ret OK (set_mCamera false s3) tr).
Proof.
  split; [|split; [|split]].
  - intros s st s' tr H.
    assert (st = OK /\
            mNumFramesReceived s'
            = add32 (mNumFramesEncoded s') (mNumFramesDropped s'))
      as [Hst Heq].
    { destruct H as [H|H].
      - exact (stop_Ret _ _ _ _ H).
      - apply stop_drain_Ret in H. destruct H as (-> & -> & _ & Heq).
        split; [reflexivity|exact Heq]. }
    split; [exact Hst|]. split; [exact Heq|].
    intros Hfit. rewrite Heq. apply wrap32_id. exact Hfit.
  - intros s Henc Hne. apply (stop_drain_drained s Henc). exact Hne.
  - intros s s1 tr1 Hb Henc Hne. unfold stop, bind. rewrite Hb.
    rewrite (proj2 (stop_drain_drained s1 Henc) Hne). reflexivity.
  - intros skip frameRate t0 s0 before s1 s2 during s3
      Hnew Hbefore Hstop Hduring Hexec Henc.
    assert (accounted s3) as Hacc.
    { eapply accounted_exec; [|exact Hexec].
      eapply accounted_stop; [|exact Hstop].
      eapply accounted_exec; [|exact Hbefore].
      eapply accounted_new; exact Hnew. }
    assert (stopping s3) as [_ Hq].
    { eapply stopping_exec; [|exact Hduring|exact Hexec].
      apply stop_after in Hstop.
      destruct Hstop as (sb & trb & Hb & _ & Hs2).
      apply stop_begin_stopping in Hb.
      destruct Hs2 as [->| ->]; [exact Hb|].
      destruct Hb as [Hst Hq']. unfold stopping; cbn; auto. }
    apply (stop_drain_drained s3 Henc).
    apply accounted_drained; assumption.
Qed.

(** The run start, two frames, read, stop, buffer returned: [stop] waits
    for the frame with the encoder and then returns with 2 = 1 + 1. *)
Lemma stop_checks_frame_accounting_witness :
  exists tr,
    stop_drain
      (mkCameraSource true 0 2 33000 false [] [] [33000] 0 1 1 0 200000 false)
    = Ret OK
        (mkCameraSource false 0 2 33000 false [] [] [33000] 0 1 1 0 200000
           false)
        tr.
Proof.
  exact (proj2 (proj2 (proj2 stop_checks_frame_accounting))
           skipNone 30 0 source30
           [Start false None OK;
            DataCallbackTimestamp 0 frameA;
            DataCallbackTimestamp 33000 frameB;
            Read None]
           (mkCameraSource true 0 2 33000 true [frameB] [frameA] [33000]
              0 0 0 0 200000 false)
           (mkCameraSource true 0 2 33000 false [] [frameA] [33000]
              0 0 1 0 200000 false)
           [SignalBufferReturned
              {| data := 4096; range_length := 64; meta_kKeyTime := 0 |}]
           (mkCameraSource true 0 2 33000 false [] [] [33000] 0 1 1 0 200000
              false)
           eq_refl eq_refl eq_refl eq_refl eq_refl eq_refl).
Defined.

(** ** C2: presentation timestamps *)




(** ** C3: returning a buffer *)

(** C3.  [signalBufferReturned] for a buffer whose address is that of a
    frame with the encoder (the camera handle being held) takes the first
    such frame out of [mFramesBeingEncoded], calls
    [releaseRecordingFrame] on it once and on nothing else, increments
    the encoded counter and signals [mFrameCompleteCondition]; when the
    addresses with the encoder are distinct no entry for the address
    remains.  For an address that is not with the encoder the call fails
    the check "bogus buffer": a fault, not a return. *)
Theorem signalBufferReturned_completes
    (buffer : MediaBuffer) (s : CameraSource)
    (Hcamera : mCamera s = true)
    (Hrange : -2147483648 <= mNumFramesEncoded s < INT32_MAX) :
  ((exists x, In x (mFramesBeingEncoded s) /\ pointer x = data buffer) ->
   exists before it rest s',
     mFramesBeingEncoded s = before ++ it :: rest /\
     pointer it = data buffer /\
     (forall x, In x before -> pointer x <> data buffer) /\
     signalBufferReturned buffer s
     = Ret tt s' [ReleaseRecordingFrame it; MediaBufferRelease (data buffer);
                  SignalFrameComplete] /\
     mFramesBeingEncoded s' = before ++ rest /\
     mNumFramesEncoded s' = mNumFramesEncoded s + 1 /\
     mNumFramesDropped s' = mNumFramesDropped s /\
     mNumFramesReceived s' = mNumFramesReceived s /\
     mFramesReceived s' = mFramesReceived s /\
     (NoDup (map pointer (mFramesBeingEncoded s)) ->
      forall x, In x (mFramesBeingEncoded s') -> pointer x <> data buffer)) /\
  ((forall x, In x (mFramesBeingEncoded s) -> pointer x <> data buffer) ->
   signalBufferReturned buffer s
   = Fault (CheckFailed "signalBufferReturned: bogus buffer")).
Proof.
  split.
  - intros Hm.
    destruct (first_match _ _ Hm) as (before & it & rest & Hsplit & Hit & Hbefore).
    exists before, it, rest. eexists.
    split; [exact Hsplit|]. split; [exact Hit|]. split; [exact Hbefore|].
    split.
    { unfold signalBufferReturned. unfold_monad. cbn.
      rewrite Hsplit,
        (signalBufferReturned_scan_found _ _ _ _ [] s Hit Hbefore), Hcamera.
      cbn. reflexivity. }
    cbn. repeat split; try reflexivity.
    + apply inc32_succ. exact Hrange.
    + intros Hnodup x Hx Hpx. rewrite Hsplit, map_app in Hnodup.
      cbn [map] in Hnodup. apply NoDup_remove_2 in Hnodup.
      apply Hnodup. rewrite <- map_app, Hit, <- Hpx. apply in_map. exact Hx.
  - intros Hbogus. unfold signalBufferReturned. unfold_monad. cbn.
    rewrite (signalBufferReturned_scan_bogus _ _ [] s Hbogus). reflexivity.
Qed.

(** Two frames with the encoder; the second is returned, then returned
    again. *)
Lemma signalBufferReturned_completes_witness :
  (exists s',
      signalBufferReturned
        {| data := 8192; range_length := 64; meta_kKeyTime := 33000 |}
        (mkCameraSource true 0 2 33000 true [] [frameA; frameB] [] 0 0 0 0
           200000 false)
      = Ret tt s' [ReleaseRecordingFrame frameB; MediaBufferRelease 8192;
                   SignalFrameComplete] /\
      mFramesBeingEncoded s' = [frameA] /\ mNumFramesEncoded s' = 1) /\
  signalBufferReturned
    {| data := 8192; range_length := 64; meta_kKeyTime := 33000 |}
    (mkCameraSource true 0 2 33000 true [] [frameA] [] 0 1 0 0 200000 false)
  = Fault (CheckFailed "signalBufferReturned: bogus buffer").
Proof.
  split.
  - destruct (proj1 (signalBufferReturned_completes
                {| data := 8192; range_length := 64; meta_kKeyTime := 33000 |}
                (mkCameraSource true 0 2 33000 true [] [frameA; frameB] [] 0
                   0 0 0 200000 false)
                eq_refl ltac:(vm_compute; split; congruence))
             ltac:(exists frameB; split; [right; left|]; reflexivity))
      as (before & it & rest & s' & _ & _ & _ & Hrun & _).
    exists s'. cbv in Hrun. injection Hrun as <-.
    repeat split; reflexivity.
  - apply (proj2 (signalBufferReturned_completes
                {| data := 8192; range_length := 64; meta_kKeyTime := 33000 |}
                (mkCameraSource true 0 2 33000 true [] [frameA] [] 0 1 0 0
                   200000 false)
                eq_refl ltac:(vm_compute; split; congruence))).
    intros x [<-|[]]. vm_compute. congruence.
Defined.

(** ** C4: frames that arrive while the source is not started *)

(** While the camera handle is held (before [start], and while [stop]
    waits for the encoder), a frame that arrives with [mStarted] false is
    handed back by [releaseRecordingFrame] at once and nothing else
    happens to the outside: the callback returns without waiting.  The
    pending queue and its times are unchanged and the dropped counter
    grows by exactly one (as does the received counter, modulo the
    [int32_t] range). *)
Theorem dataCallbackTimestamp_not_started
    (skipCurrentFrame : Z -> bool) (timestampUs : Z) (frame : IMemory)
    (s : CameraSource)
    (Hidle : mStarted s = false)
    (Hcamera : mCamera s = true)
    (Hrange : 0 <= mNumFramesDropped s < INT32_MAX) :
  exists s',
    dataCallbackTimestamp skipCurrentFrame timestampUs frame s
    = Ret tt s' [ReleaseRecordingFrame frame] /\
    mFramesReceived s' = mFramesReceived s /\
    List.length (mFramesReceived s') = List.length (mFramesReceived s) /\
    mFrameTimes s' = mFrameTimes s /\
    mFramesBeingEncoded s' = mFramesBeingEncoded s /\
    mNumFramesDropped s' = mNumFramesDropped s + 1 /\
    mNumFramesReceived s' = inc32 (mNumFramesReceived s) /\
    mNumFramesEncoded s' = mNumFramesEncoded s /\
    mStarted s' = false.
Proof.
  open_state s. subst started cam. unfold dataCallbackTimestamp. unfold_monad. cbn.
  eexists. split; [reflexivity|]. cbn. repeat split; try reflexivity.
  apply inc32_succ. destruct Hrange as [Hlow Hhigh]. split; [lia|exact Hhigh].
Qed.

(** A frame that arrives while [stop] waits for the encoder to return
    [frameA]. *)
Lemma dataCallbackTimestamp_not_started_witness :
  exec skipNone
    [Start false None OK; DataCallbackTimestamp 0 frameA;
     DataCallbackTimestamp 33000 frameB; Read None; Stop]
    source30
  = Some (mkCameraSource true 0 2 33000 false [] [frameA] [33000] 0 0 1 0
            200000 false) /\
  exists s',
    dataCallbackTimestamp skipNone 66000 frameC
      (mkCameraSource true 0 2 33000 false [] [frameA] [33000] 0 0 1 0
         200000 false)
    = Ret tt s' [ReleaseRecordingFrame frameC] /\
    mFramesReceived s' = [] /\
    mNumFramesDropped s' = 2.
Proof.
  split; [reflexivity|].
  destruct (dataCallbackTimestamp_not_started skipNone 66000 frameC
              (mkCameraSource true 0 2 33000 false [] [frameA] [33000]
                 0 0 1 0 200000 false)
              eq_refl eq_refl ltac:(vm_compute; split; congruence))
    as (s' & Hrun & Hq & _ & _ & _ & Hd & _).
  exists s'. repeat split; assumption.
Defined.

(** C4, at the failing input: start, then stop with nothing at the
    encoder, so that [stop] returns and has set [mCamera] to NULL, then a
    frame from a callback that was already on its way.  The source is
    not started, and lines 321, 257 and 238 call
    [releaseRecordingFrame] through the NULL handle: the callback faults
    before it gets to the counters of lines 322-323, and does not
    return. *)
Theorem late_frame_after_stop_faults :
  exec skipNone [Start false None OK; Stop] source30
  = Some (mkCameraSource false 0 0 0 false [] [] [] 0 0 0 0 200000 false) /\
  mStarted (mkCameraSource false 0 0 0 false [] [] [] 0 0 0 0 200000 false)
  = false /\
  dataCallbackTimestamp skipNone 33000 frameA
    (mkCameraSource false 0 0 0 false [] [] [] 0 0 0 0 200000 false)
  = Fault NullCamera /\
  (forall s' tr,
      dataCallbackTimestamp skipNone 33000 frameA
        (mkCameraSource false 0 0 0 false [] [] [] 0 0 0 0 200000 false)
      <> Ret tt s' tr).
Proof.
  split; [vm_compute; reflexivity|]. split; [reflexivity|].
  split; [reflexivity|]. intros s' tr H. discriminate H.
Qed.

(** ** C5: a first frame captured before the start time *)

(** With a start time T > 0, a first frame with a timestamp before T is
    released and not counted, but lines 342 and 344 have already stored
    its timestamp in [mLastFrameTimestampUs] and [mFirstFrameTimeUs]. *)
Lemma firstFrameGate_early skipCurrentFrame timestampUs frame s :
  mStarted s = true -> mCamera s = true ->
  skipCurrentFrame timestampUs = false ->
  mNumFramesReceived s = 0 ->
  mStartTimeUs s > 0 -> timestampUs < mStartTimeUs s ->
  dataCallbackTimestamp skipCurrentFrame timestampUs frame s
  = Ret tt
      (set_mFirstFrameTimeUs timestampUs
         (set_mLastFrameTimestampUs timestampUs s))
      [ReleaseRecordingFrame frame].
Proof.
  open_state s. intros -> -> Hkeep -> HT Hts.
  unfold dataCallbackTimestamp, detectGlitch, firstFrameGate.
  unfold_monad. cbn. rewrite Hkeep. cbn.
  destruct (t0 >? 0) eqn:H1; [|lia].
  destruct (timestampUs <? t0) eqn:H2; [|lia].
  reflexivity.
Qed.

(** C5, at the failing input: start time 100, first frame at 80.  The
    frame is released and neither queued nor counted, and
    [mLastFrameTimestampUs] goes from 0 to 80. *)
Theorem early_first_frame_moves_mLastFrameTimestampUs :
  mLastFrameTimestampUs
    (mkCameraSource true 100 0 0 true [] [] [] 0 0 0 0 200000 false) = 0 /\
  exec skipNone [startAt 100] source30
  = Some (mkCameraSource true 100 0 0 true [] [] [] 0 0 0 0 200000 false) /\
  dataCallbackTimestamp skipNone 80 frameA
    (mkCameraSource true 100 0 0 true [] [] [] 0 0 0 0 200000 false)
  = Ret tt
      (mkCameraSource true 100 0 80 true [] [] [] 80 0 0 0 200000 false)
      [ReleaseRecordingFrame frameA] /\
  mLastFrameTimestampUs
    (mkCameraSource true 100 0 80 true [] [] [] 80 0 0 0 200000 false) = 80.
Proof.
  split; [reflexivity|]. split; [reflexivity|]. split; [|reflexivity].
  rewrite (firstFrameGate_early skipNone 80 frameA); cbn; try reflexivity; lia.
Qed.

(** ** C6: glitches *)

(** C6.  On a started source that has received a frame, a frame whose
    timestamp is more than the glitch threshold after
    [mLastFrameTimestampUs] adds exactly one to the glitch counter and is
    not dropped for it: the dropped counter is unchanged and the frame is
    queued unless the hook [skipCurrentFrame] skips it.  The constructor
    sets the threshold to the larger of 200000 us and one frame interval
    [1000000 / frameRate].  With frames at 0, 50000 and 260000 us on a
    30 fps source the threshold is 200000, one glitch is counted and all
    three frames are queued. *)
Theorem glitch_counted_not_dropped
    (skipCurrentFrame : Z -> bool) (timestampUs : Z) (frame : IMemory)
    (s : CameraSource) (frameRate startTimeUs0 : Z)
    (Hstarted : mStarted s = true)
    (Hcamera : mCamera s = true)
    (Hreceived : mNumFramesReceived s > 0)
    (Hfit : in64 (timestampUs - mLastFrameTimestampUs s))
    (Hgap : timestampUs - mLastFrameTimestampUs s
            > mGlitchDurationThresholdUs s)
    (Hrange : 0 <= mNumGlitches s < INT32_MAX)
    (Hrate : frameRate <> 0)
    (Hrate32 : in32 frameRate) :
  (exists s' tr,
      dataCallbackTimestamp skipCurrentFrame timestampUs frame s
      = Ret tt s' tr /\
      mNumGlitches s' = mNumGlitches s + 1 /\
      mNumFramesDropped s' = mNumFramesDropped s /\
      mGlitchDurationThresholdUs s' = mGlitchDurationThresholdUs s /\
      mFramesReceived s'
      = (if skipCurrentFrame timestampUs then mFramesReceived s
         else mFramesReceived s ++ [frame])) /\
  (exists s0,
      new_CameraSource frameRate startTimeUs0 = Some s0 /\
      mGlitchDurationThresholdUs s0
      = Z.max 200000 (Z.quot 1000000 frameRate)) /\
  new_CameraSource 30 0 = Some source30 /\
  exec skipNone glitchScenario source30
  = Some (mkCameraSource true 0 3 260000 true [frameA; frameB; frameC] []
            [0; 50000; 260000] 0 0 0 1 200000 false).
Proof.
  split; [|split; [|split; reflexivity]].
  - open_state s. subst started cam.
    assert (sub64 timestampUs l = timestampUs - l) as Hsub
      by (apply wrap64_id; exact Hfit).
    assert (inc32 g = g + 1) as Hinc
      by (apply inc32_succ; destruct Hrange; split; [lia|assumption]).
    unfold dataCallbackTimestamp, detectGlitch, firstFrameGate, queueFrame.
    assert ((r >? 0) = true) as Hr by lia.
    assert ((timestampUs - l >? thr) = true) as Hg by lia.
    assert ((r =? 0) = false) as Hr0 by lia.
    unfold_monad. cbn. rewrite Hsub, Hinc, Hr, Hg. cbn.
    destruct (Z.rem g glitchLogPeriod =? 0);
      destruct (skipCurrentFrame timestampUs); cbn; rewrite ?Hr0; cbn;
      do 2 eexists; (split; [reflexivity|]); cbn; repeat split; reflexivity.
  - unfold new_CameraSource.
    destruct (frameRate =? 0) eqn:H0; [lia|].
    eexists. split; [reflexivity|]. cbn [mGlitchDurationThresholdUs].
    assert (in64 (Z.quot 1000000 frameRate)) as Hq.
    { apply in64_bounds.
      assert (Z.abs (Z.quot 1000000 frameRate) <= 1000000).
      { rewrite <- Z.quot_abs by lia.
        apply Z.quot_le_upper_bound; lia. }
      lia. }
    rewrite (wrap64_id _ Hq).
    destruct (Z.quot 1000000 frameRate >? 200000) eqn:Hc; lia.
Qed.

(** The third frame of the scenario. *)
Lemma glitch_counted_not_dropped_witness :
  exists s' tr,
    dataCallbackTimestamp skipNone 260000 frameC
      (mkCameraSource true 0 2 50000 true [frameA; frameB] [] [0; 50000] 0 0
         0 0 200000 false)
    = Ret tt s' tr /\
    mNumGlitches s' = 1 /\
    mFramesReceived s' = [frameA; frameB; frameC].
Proof.
  destruct (glitch_counted_not_dropped skipNone 260000 frameC
              (mkCameraSource true 0 2 50000 true [frameA; frameB] []
                 [0; 50000] 0 0 0 0 200000 false)
              30 0 eq_refl eq_refl eq_refl
              ltac:(vm_compute; split; congruence)
              eq_refl
              ltac:(vm_compute; split; congruence)
              ltac:(discriminate)
              ltac:(vm_compute; split; congruence))
    as ((s' & tr & Hrun & Hg & _ & _ & Hq) & _).
  exists s', tr. repeat split; assumption.
Defined.

(** ** C7: a camera that does not start recording *)

(** C7, as stated, fails: when the camera answers [startRecording] with
    an error, [start] does not return a failure status with the source
    left idle; it fails a check and does not return at all. *)
Lemma start_failure_not_returned :
  start false None (OTHER_ERROR (-1)) source30
  = Fault (CheckFailed "OK != mCamera->startRecording()") /\
  ~ (exists st s' tr,
        start false None (OTHER_ERROR (-1)) source30 = Ret st s' tr /\
        st <> OK /\ mStarted s' = false).
Proof.
  split; [reflexivity|].
  intros (st & s' & tr & Hrun & _). vm_compute in Hrun. discriminate Hrun.
Qed.

(** C7, amended.  When the camera answers [startRecording] with anything
    but OK, [start] on an idle source fails the CHECK_EQ of
    [startCameraRecording]: a fault, not a status.  At that point
    lines 182-197 have run and registered the listener, the camera has
    been asked to record, and [mStarted] is still false: [start] is
    those lines, then [startCameraRecording], then the assignment of
    [mStarted], and the check fails in between.  Whenever [start]
    returns, the status is OK, the camera answered OK and the source is
    started. *)
Theorem start_camera_failure_is_fatal
    (recordStats : bool) (meta : option MetaData) (cameraStatus : status_t)
    (s : CameraSource)
    (Hidle : mStarted s = false)
    (Hcamera : mCamera s = true)
    (Hfail : cameraStatus <> OK) :
  start recordStats meta cameraStatus s
  = Fault (CheckFailed "OK != mCamera->startRecording()") /\
  (exists s1,
      start_prologue recordStats meta s = Ret tt s1 [SetListener true] /\
      mStarted s1 = false /\
      camera StartRecording s1 = Ret tt s1 [StartRecording] /\
      startCameraRecording cameraStatus s1
      = Fault (CheckFailed "OK != mCamera->startRecording()")) /\
  (forall recordStats' meta' cameraStatus' s0,
      start recordStats' meta' cameraStatus' s0
      = (start_prologue recordStats' meta' ;;
         startCameraRecording cameraStatus' ;;
         modify (set_mStarted true) ;;
         ret OK) s0) /\
  (forall recordStats' meta' cameraStatus' s0 st s' tr,
      start recordStats' meta' cameraStatus' s0 = Ret st s' tr ->
      st = OK /\ cameraStatus' = OK /\
      mStarted s0 = false /\ mStarted s' = true).
Proof.
  split; [|split; [|split]].
  - open_state s. subst started cam.
    destruct cameraStatus as [| |code]; [congruence| |];
      destruct recordStats; destruct meta as [[[t|]]|];
      reflexivity.
  - open_state s. subst started cam.
    destruct cameraStatus as [| |code]; [congruence| |];
      destruct recordStats; destruct meta as [[[t|]]|];
      eexists; (split; [reflexivity|]); repeat split; reflexivity.
  - intros recordStats' meta' cameraStatus' s0.
    open_state s0.
    destruct cameraStatus' as [| |code]; destruct started; destruct cam;
      destruct recordStats'; destruct meta' as [[[t|]]|]; reflexivity.
  - intros recordStats' meta' cameraStatus' s0 st s' tr H.
    open_state s0.
    destruct cameraStatus' as [| |code]; destruct started; destruct cam;
      destruct recordStats'; destruct meta' as [[[t|]]|];
      cbn in H; try discriminate H; injection H as <- <- _;
      repeat split; reflexivity.
Qed.

Lemma start_camera_failure_is_fatal_witness :
  start false None (OTHER_ERROR (-1)) source30
  = Fault (CheckFailed "OK != mCamera->startRecording()").
Proof.
  exact (proj1 (start_camera_failure_is_fatal false None (OTHER_ERROR (-1))
                  source30 eq_refl eq_refl ltac:(discriminate))).
Defined.

(** ** C8: frames the hook skips *)

(** C8, as stated, fails: a frame the hook skips does not increment the
    received counter.  After a frame at 0 that is kept and a frame at
    33000 that is skipped the counter is 1, not 2. *)
Lemma skipped_frame_not_received :
  exists s,
    exec skipLater
      [Start false None OK; DataCallbackTimestamp 0 frameA;
       DataCallbackTimestamp 33000 frameB]
      source30
    = Some s /\
    mFramesReceived s = [frameA] /\
    mNumFramesReceived s = 1 /\
    mNumFramesReceived s <> 1 + 1.
Proof.
  exists (mkCameraSource true 0 1 0 true [frameA] [] [0] 0 0 0 0 200000
            false).
  split; [vm_compute; reflexivity|].
  split; [reflexivity|]. split; [reflexivity|]. discriminate.
Qed.

(** C8, amended.  A frame the hook [skipCurrentFrame] skips on a started
    source is released and not queued; the received, encoded and dropped
    counters, [mLastFrameTimestampUs], [mFirstFrameTimeUs], [mStartTimeUs]
    and the glitch threshold are as before.  The glitch test has run
    before the hook is asked: the glitch counter is incremented exactly
    when the test of lines 327-328 holds for the frame. *)
Theorem skipped_frame_released
    (skipCurrentFrame : Z -> bool) (timestampUs : Z) (frame : IMemory)
    (s : CameraSource)
    (Hstarted : mStarted s = true)
    (Hcamera : mCamera s = true)
    (Hskip : skipCurrentFrame timestampUs = true) :
  exists s' tr,
    detectGlitch timestampUs s = Ret tt s' tr /\
    dataCallbackTimestamp skipCurrentFrame timestampUs frame s
    = Ret tt s' (tr ++ [ReleaseRecordingFrame frame]) /\
    s' = (if glitch timestampUs s
          then set_mNumGlitches (inc32 (mNumGlitches s)) s else s) /\
    mFramesReceived s' = mFramesReceived s /\
    mFrameTimes s' = mFrameTimes s /\
    mNumFramesReceived s' = mNumFramesReceived s /\
    mNumFramesEncoded s' = mNumFramesEncoded s /\
    mNumFramesDropped s' = mNumFramesDropped s /\
    mLastFrameTimestampUs s' = mLastFrameTimestampUs s /\
    mFirstFrameTimeUs s' = mFirstFrameTimeUs s /\
    mStartTimeUs s' = mStartTimeUs s /\
    mGlitchDurationThresholdUs s' = mGlitchDurationThresholdUs s /\
    mNumGlitches s'
    = (if glitch timestampUs s then inc32 (mNumGlitches s)
       else mNumGlitches s).
Proof.
  open_state s. subst started cam.
  unfold dataCallbackTimestamp, detectGlitch, glitch. unfold_monad. cbn.
  rewrite Hskip.
  destruct ((r >? 0) && (sub64 timestampUs l >? thr)); cbn;
    [destruct (Z.rem g glitchLogPeriod =? 0); cbn|];
    do 2 eexists; (split; [reflexivity|]); cbn; repeat split; reflexivity.
Qed.

Lemma skipped_frame_released_witness :
  exists s' tr,
    dataCallbackTimestamp skipLater 33000 frameB
      (mkCameraSource true 0 1 0 true [frameA] [] [0] 0 0 0 0 200000 false)
    = Ret tt s' (tr ++ [ReleaseRecordingFrame frameB]) /\
    mNumFramesReceived s' = 1 /\
    mFramesReceived s' = [frameA] /\
    mLastFrameTimestampUs s' = 0.
Proof.
  destruct (skipped_frame_released skipLater 33000 frameB
              (mkCameraSource true 0 1 0 true [frameA] [] [0] 0 0 0 0 200000
                 false)
              eq_refl eq_refl eq_refl)
    as (s' & tr & _ & Hrun & _ & Hq & _ & Hr & _ & _ & Hl & _).
  exists s', tr. repeat split; assumption.
Defined.

(** ** C9: frames and their times *)

(** Queueing a frame and handing one to the consumer keep the two lists
    of the pending queue in step. *)
Lemma paired_dataCallbackTimestamp skip timestampUs frame s s' :
  paired s ->
  after (dataCallbackTimestamp skip timestampUs frame s) = Some s' ->
  paired s'.
Proof.
  open_state s. unfold paired; cbn. intros Hp H.
  run_call; close_after; cbn; rewrite ?length_app; cbn; lia.
Qed.

Lemma paired_read options s s' :
  paired s -> after (read options s) = Some s' -> paired s'.
Proof.
  open_state s. unfold paired; cbn. intros Hp H.
  run_call; close_after; cbn in *; lia.
Qed.

(** [read] hands out the first frame with the first time. *)
Lemma read_first_pair frame frames timeUs times s :
  mStarted s = true ->
  mFramesReceived s = frame :: frames ->
  mFrameTimes s = timeUs :: times ->
  read None s
  = Ret (OK, Some {| data := pointer frame; range_length := size frame;
                     meta_kKeyTime := timeUs |})
      (set_mFramesBeingEncoded (mFramesBeingEncoded s ++ [frame])
         (set_mFrameTimes times (set_mFramesReceived frames s)))
      [].
Proof.
  open_state s. intros -> -> ->. reflexivity.
Qed.

(** [stop] with frames still queued empties [mFramesReceived] and leaves
    [mFrameTimes] as it is. *)
Lemma stop_begin_keeps_mFrameTimes s s1 tr1 :
  stop_begin s = Ret tt s1 tr1 ->
  mFramesReceived s1 = [] /\ mFrameTimes s1 = mFrameTimes s.
Proof.
  intros H. destruct (mCamera s) eqn:Hcam;
    [rewrite (stop_begin_live s Hcam) in H
    |rewrite (stop_begin_null s Hcam) in H; discriminate].
  injection H as <- _. split; reflexivity.
Qed.

(** C9, at the failing input: start, one frame, stop.  The frame is
    queued with its time; [stop] releases the frame and empties
    [mFramesReceived], and [mFrameTimes] still holds the time: the lists
    have lengths 0 and 1. *)
Theorem stop_leaves_stale_mFrameTimes :
  exec skipNone [Start false None OK; DataCallbackTimestamp 0 frameA]
    source30
  = Some (mkCameraSource true 0 1 0 true [frameA] [] [0] 0 0 0 0 200000
            false) /\
  paired (mkCameraSource true 0 1 0 true [frameA] [] [0] 0 0 0 0 200000
            false) /\
  stop (mkCameraSource true 0 1 0 true [frameA] [] [0] 0 0 0 0 200000 false)
  = Ret OK
      (mkCameraSource false 0 1 0 false [] [] [0] 0 0 1 0 200000 false)
      [SignalFrameAvailable; SetListener false; StopRecording;
       ReleaseRecordingFrame frameA] /\
  ~ paired (mkCameraSource false 0 1 0 false [] [] [0] 0 0 1 0 200000 false).
Proof.
  repeat split; try reflexivity. unfold paired. cbn. discriminate.
Qed.

(** ** C10: reading from a source that is not started *)

(** C10.  On a source that is not started, a [read] that gets to the
    test of [mStarted] (one without seek request) returns OK with a NULL
    buffer at once and leaves the object as it is, whatever is still in
    the pending queue: no queued frame is handed out.  A read that asks
    for a seek has been answered ERROR_UNSUPPORTED at lines 286-288
    before the state is looked at; it hands out no frame either. *)
Theorem read_not_started
    (options : option ReadOptions) (s : CameraSource)
    (Hidle : mStarted s = false) :
  read options s
  = Ret (match options with
         | Some {| getSeekTo := Some _ |} => ERROR_UNSUPPORTED
         | _ => OK
         end, None) s [] /\
  (options = None \/ options = Some {| getSeekTo := None |} ->
   read options s = Ret (OK, None) s []).
Proof.
  open_state s. subst started.
  destruct options as [[[seekTimeUs|]]|]; cbn; (split; [reflexivity|]).
  - intros [H|H]; discriminate H.
  - intros _. reflexivity.
  - intros _. reflexivity.
Qed.

(** A read after [stop] has flipped [mStarted], with a frame still
    queued. *)
Lemma read_not_started_witness :
  read None
    (mkCameraSource true 0 1 0 false [frameA] [] [0] 0 0 0 0 200000 false)
  = Ret (OK, None)
      (mkCameraSource true 0 1 0 false [frameA] [] [0] 0 0 0 0 200000 false)
      [].
Proof.
  exact (proj1 (read_not_started None
                  (mkCameraSource true 0 1 0 false [frameA] [] [0] 0 0 0 0
                     200000 false)
                  eq_refl)).
Defined.

(** * Further properties of the code *)

(** ** The frame accounting holds throughout *)

(** X1.  In every run of a constructed source, after every call, the
    received counter equals encoded + dropped + the number of queued
    frames + the number of frames with the encoder, modulo 2^32; it is
    the plain equation while the sum stays below 2^31. *)
Theorem accounted_in_every_run
    (skipCurrentFrame : Z -> bool) (frameRate startTimeUs0 : Z)
    (calls : list call) (s0 s : CameraSource)
    (Hnew : new_CameraSource frameRate startTimeUs0 = Some s0)
    (Hrun : exec skipCurrentFrame calls s0 = Some s) :
  accounted s /\
  (0 <= mNumFramesEncoded s ->
   0 <= mNumFramesDropped s ->
   mNumFramesEncoded s + mNumFramesDropped s
   + Z.of_nat (List.length (mFramesReceived s))
   + Z.of_nat (List.length (mFramesBeingEncoded s)) <= INT32_MAX ->
   mNumFramesReceived s
   = mNumFramesEncoded s + mNumFramesDropped s
     + Z.of_nat (List.length (mFramesReceived s))
     + Z.of_nat (List.length (mFramesBeingEncoded s))).
Proof.
  assert (accounted s) as Hacc.
  { eapply accounted_exec; [|exact Hrun]. eapply accounted_new; exact Hnew. }
  split; [exact Hacc|].
  destruct Hacc as [Hr Hacc]. intros He Hd Hsum. wrap_lia.
Qed.

Lemma accounted_in_every_run_witness :
  accounted
    (mkCameraSource true 0 3 66000 true [frameC] [frameB] [66000] 0 1 0 0
       200000 false).
Proof.
  exact (proj1 (accounted_in_every_run skipNone 30 0
                  [Start false None OK;
                   DataCallbackTimestamp 0 frameA;
                   DataCallbackTimestamp 33000 frameB;
                   Read None;
                   DataCallbackTimestamp 66000 frameC;
                   Read None;
                   SignalBufferReturned (bufferOf frameA 0)]
                  source30
                  (mkCameraSource true 0 3 66000 true [frameC] [frameB]
                     [66000] 0 1 0 0 200000 false)
                  eq_refl ltac:(vm_compute; reflexivity))).
Defined.

(** ** The glitch threshold *)

Lemma threshold_perform skip c s s' :
  perform skip c s = Some s' ->
  mGlitchDurationThresholdUs s' = mGlitchDurationThresholdUs s.
Proof.
  intros H. destruct c; cbn [perform] in H.
  - open_state s. run_call; close_after; reflexivity.
  - open_state s. run_call; close_after; reflexivity.
  - open_state s. run_call; close_after; reflexivity.
  - apply signalBufferReturned_after in H.
    destruct H as (before & it & rest & _ & _ & ->). reflexivity.
  - apply stop_after in H. destruct H as (s1 & tr1 & Hb & Hcam & Hs').
    rewrite (stop_begin_live s Hcam) in Hb. injection Hb as <- _.
    destruct Hs' as [->| ->]; reflexivity.
  - destruct (stop_drain s) as [a s1 tr| |c s1 tr] eqn:Hd; cbn in H;
      try discriminate; injection H as <-.
    + apply stop_drain_Ret in Hd. destruct Hd as (_ & -> & _). reflexivity.
    + apply stop_drain_Wait in Hd. destruct Hd as (_ & -> & _). reflexivity.
Qed.

(** X2.  No call changes the glitch threshold: in every run of a source
    constructed for a nonzero frame rate it stays at the larger of
    200000 us and [1000000 / frameRate], so it is never below 200 ms. *)
Theorem glitch_threshold_fixed
    (skipCurrentFrame : Z -> bool) (frameRate startTimeUs0 : Z)
    (calls : list call) (s0 s : CameraSource)
    (Hrate32 : in32 frameRate)
    (Hnew : new_CameraSource frameRate startTimeUs0 = Some s0)
    (Hrun : exec skipCurrentFrame calls s0 = Some s) :
  mGlitchDurationThresholdUs s = Z.max 200000 (Z.quot 1000000 frameRate) /\
  200000 <= mGlitchDurationThresholdUs s.
Proof.
  assert (mGlitchDurationThresholdUs s = mGlitchDurationThresholdUs s0) as ->.
  { clear Hnew. revert s0 Hrun.
    induction calls as [|c calls IH]; cbn [exec]; intros s0 Hrun.
    - injection Hrun as <-. reflexivity.
    - destruct (perform skipCurrentFrame c s0) as [s1|] eqn:Hc;
        [|discriminate].
      rewrite (IH _ Hrun). exact (threshold_perform _ _ _ _ Hc). }
  unfold new_CameraSource in Hnew.
  destruct (frameRate =? 0) eqn:H0; [discriminate|].
  injection Hnew as <-. cbn [mGlitchDurationThresholdUs].
  assert (in64 (Z.quot 1000000 frameRate)) as Hq.
  { apply in64_bounds.
    assert (Z.abs (Z.quot 1000000 frameRate) <= 1000000).
    { rewrite <- Z.quot_abs by lia. apply Z.quot_le_upper_bound; lia. }
    lia. }
  rewrite (wrap64_id _ Hq).
  destruct (Z.quot 1000000 frameRate >? 200000) eqn:Hc; lia.
Qed.

(** A 4 fps camera: the frame interval of 250 ms is the threshold. *)
Lemma glitch_threshold_fixed_witness :
  mGlitchDurationThresholdUs
    (mkCameraSource true 0 1 0 true [frameA] [] [0] 0 0 0 0 250000 false)
  = Z.max 200000 (Z.quot 1000000 4).
Proof.
  exact (proj1 (glitch_threshold_fixed skipNone 4 0
                  [Start false None OK; DataCallbackTimestamp 0 frameA]
                  (mkCameraSource true 0 0 0 false [] [] [] 0 0 0 0 250000
                     false)
                  (mkCameraSource true 0 1 0 true [frameA] [] [0] 0 0 0 0
                     250000 false)
                  ltac:(vm_compute; split; congruence)
                  ltac:(vm_compute; reflexivity)
                  ltac:(vm_compute; reflexivity))).
Defined.

(** ** [read] always finds a time *)

Lemma times_cover_perform skip c s s' :
  times_cover s -> perform skip c s = Some s' -> times_cover s'.
Proof.
  intros Hc H. destruct c; cbn [perform] in H.
  - open_state s. unfold times_cover in *; cbn in *.
    run_call; close_after; cbn; lia.
  - open_state s. unfold times_cover in *; cbn in *.
    run_call; close_after; cbn; rewrite ?length_app; cbn; lia.
  - open_state s. unfold times_cover in *; cbn in *.
    run_call; close_after; cbn in *; lia.
  - apply signalBufferReturned_after in H.
    destruct H as (before & it & rest & _ & _ & ->). exact Hc.
  - apply stop_after in H. destruct H as (s1 & tr1 & Hb & Hcam & Hs').
    rewrite (stop_begin_live s Hcam) in Hb. injection Hb as <- _.
    destruct Hs' as [->| ->]; unfold times_cover; cbn; lia.
  - destruct (stop_drain s) as [a s1 tr| |c s1 tr] eqn:Hd; cbn in H;
      try discriminate; injection H as <-.
    + apply stop_drain_Ret in Hd. destruct Hd as (_ & -> & _). exact Hc.
    + apply stop_drain_Wait in Hd. destruct Hd as (_ & -> & _). exact Hc.
Qed.

Lemma times_cover_exec skip calls :
  forall s s', times_cover s -> exec skip calls s = Some s' -> times_cover s'.
Proof.
  induction calls as [|c calls IH]; cbn [exec]; intros s s' Hc H.
  - injection H as <-. exact Hc.
  - destruct (perform skip c s) as [s1|] eqn:Hp; [|discriminate].
    eapply IH; [|exact H]. eapply times_cover_perform; eassumption.
Qed.

(** X3.  In every run of a constructed source [mFrameTimes] is at least as
    long as [mFramesReceived], so [read] never takes [*begin()] of an
    empty [mFrameTimes]: whatever the options, it returns or waits, it
    does not fault. *)
Theorem read_never_faults
    (skipCurrentFrame : Z -> bool) (frameRate startTimeUs0 : Z)
    (calls : list call) (s0 s : CameraSource)
    (options : option ReadOptions)
    (Hnew : new_CameraSource frameRate startTimeUs0 = Some s0)
    (Hrun : exec skipCurrentFrame calls s0 = Some s) :
  times_cover s /\ forall f, read options s <> Fault f.
Proof.
  assert (times_cover s) as Hc.
  { eapply times_cover_exec; [|exact Hrun].
    unfold new_CameraSource in Hnew.
    destruct (frameRate =? 0); [discriminate|]. injection Hnew as <-.
    unfold times_cover. cbn. lia. }
  split; [exact Hc|]. intros f.
  open_state s. unfold times_cover in Hc; cbn in Hc.
  destruct options as [[[seekTimeUs|]]|]; destruct started; destruct q;
    cbn; try discriminate; destruct ts; cbn in *; try discriminate; lia.
Qed.

Lemma read_never_faults_witness :
  read None
    (mkCameraSource true 0 1 0 true [frameA] [] [0] 0 0 0 0 200000 false)
  <> Fault EmptyList.
Proof.
  exact (proj2 (read_never_faults skipNone 30 0
                  [Start false None OK; DataCallbackTimestamp 0 frameA]
                  source30
                  (mkCameraSource true 0 1 0 true [frameA] [] [0] 0 0 0 0
                     200000 false)
                  None eq_refl ltac:(vm_compute; reflexivity))
           EmptyList).
Defined.

(** ** Stopping *)

Lemma released_app (t1 t2 : list effect) :
  released (t1 ++ t2) = released t1 ++ released t2.
Proof. apply flat_map_app. Qed.

Lemma released_releases (frames : list IMemory) :
  released (map ReleaseRecordingFrame frames) = frames.
Proof.
  induction frames as [|f frames IH]; [reflexivity|].
  cbn. unfold released in IH. rewrite IH. reflexivity.
Qed.

Lemma released_stop_prefix (frames : list IMemory) :
  released (SignalFrameAvailable :: SetListener false :: StopRecording
            :: map ReleaseRecordingFrame frames) = frames.
Proof. exact (released_releases frames). Qed.

Lemma stop_drain_releases_nothing s :
  released (effects_of (stop_drain s)) = [].
Proof.
  destruct s as [cam t0 r l started q [|f enc] ts f0 e d g thr [|]];
    unfold stop_drain; unfold_monad; cbn; try reflexivity;
    destruct (r =? add32 e d); reflexivity.
Qed.

Lemma iter_inc32_plain n :
  forall x, 0 <= x -> x + Z.of_nat n <= INT32_MAX ->
            Nat.iter n inc32 x = x + Z.of_nat n.
Proof.
  induction n as [|n IH]; intros x H0 Hmax.
  - cbn. lia.
  - rewrite Nat.iter_succ_r, IH.
    + rewrite inc32_succ; [lia|]. unfold INT32_MAX in *. lia.
    + rewrite inc32_succ; [lia|]. unfold INT32_MAX in *. lia.
    + rewrite inc32_succ; [lia|]. unfold INT32_MAX in *. lia.
Qed.

(** What [stop] has done when it returns or goes to sleep. *)
Lemma stop_effects s :
  mCamera s = true ->
  exists s1 tr2,
    stop_begin s
    = Ret tt s1 (SignalFrameAvailable :: SetListener false :: StopRecording
                 :: map ReleaseRecordingFrame (mFramesReceived s)) /\
    s1 = set_mNumFramesDropped
           (Nat.iter (List.length (mFramesReceived s)) inc32
              (mNumFramesDropped s))
           (set_mFramesReceived [] (set_mStarted false s)) /\
    released tr2 = [] /\
    (after (stop s) = Some s1 \/ after (stop s) = Some (set_mCamera false s1)
     \/ after (stop s) = None) /\
    effects_of (stop s)
    = match stop s with
      | Fault _ => []
      | _ => (SignalFrameAvailable :: SetListener false :: StopRecording
              :: map ReleaseRecordingFrame (mFramesReceived s)) ++ tr2
      end.
Proof.
  intros Hcam. pose proof (stop_begin_live s Hcam) as Hb.
  eexists. exists (effects_of (stop_drain
    (set_mNumFramesDropped
       (Nat.iter (List.length (mFramesReceived s)) inc32
          (mNumFramesDropped s))
       (set_mFramesReceived [] (set_mStarted false s))))).
  split; [exact Hb|]. split; [reflexivity|].
  split; [apply stop_drain_releases_nothing|].
  unfold stop, bind. rewrite Hb.
  match goal with
  | |- context [stop_drain ?s1] =>
      destruct (stop_drain s1) as [st s2 tr2| |c s2 tr2] eqn:Hd
  end; cbn [after effects_of].
  - apply stop_drain_Ret in Hd. destruct Hd as (_ & -> & _).
    split; [right; left; reflexivity|reflexivity].
  - split; [right; right; reflexivity|reflexivity].
  - apply stop_drain_Wait in Hd. destruct Hd as (_ & -> & _).
    split; [left; reflexivity|reflexivity].
Qed.

(** X4.  [stop] hands every frame that is still queued back to the camera,
    once each and in queue order, after it has signalled
    [mFrameAvailableCondition], detached the listener and stopped the
    recording; it leaves the queue empty and adds their number to the
    dropped counter.  The frames with the encoder and the other two
    counters are not touched. *)
Theorem stop_releases_queued_frames
    (s s' : CameraSource)
    (Hcamera : mCamera s = true)
    (Hrange : 0 <= mNumFramesDropped s /\
              mNumFramesDropped s
              + Z.of_nat (List.length (mFramesReceived s)) <= INT32_MAX)
    (Hstop : after (stop s) = Some s') :
  released (effects_of (stop s)) = mFramesReceived s /\
  (exists tr,
      effects_of (stop s)
      = SignalFrameAvailable :: SetListener false :: StopRecording
        :: map ReleaseRecordingFrame (mFramesReceived s) ++ tr) /\
  mFramesReceived s' = [] /\
  mNumFramesDropped s'
  = mNumFramesDropped s + Z.of_nat (List.length (mFramesReceived s)) /\
  mNumFramesReceived s' = mNumFramesReceived s /\
  mNumFramesEncoded s' = mNumFramesEncoded s /\
  mFramesBeingEncoded s' = mFramesBeingEncoded s /\
  mStarted s' = false.
Proof.
  destruct (stop_effects s Hcamera)
    as (s1 & tr2 & Hb & Hs1 & Htr2 & Hafter & Heff).
  destruct Hrange as [H0 Hmax].
  pose proof (iter_inc32_plain _ _ H0 Hmax) as Hiter.
  rewrite Heff. rewrite Hstop in Hafter.
  destruct (stop s) as [st s2 tr| |c s2 tr]; cbn in Hstop; try discriminate;
    cbv beta iota.
  - split.
    { rewrite released_app, released_stop_prefix, Htr2, app_nil_r.
      reflexivity. }
    split; [exists tr2; reflexivity|].
    destruct Hafter as [H|[H|H]]; try discriminate; injection H as ->;
      subst s1; cbn -[Nat.iter]; rewrite Hiter; repeat split; reflexivity.
  - split.
    { rewrite released_app, released_stop_prefix, Htr2, app_nil_r.
      reflexivity. }
    split; [exists tr2; reflexivity|].
    destruct Hafter as [H|[H|H]]; try discriminate; injection H as ->;
      subst s1; cbn -[Nat.iter]; rewrite Hiter; repeat split; reflexivity.
Qed.

(** Two frames queued, one with the encoder: [stop] releases the two and
    waits. *)
Lemma stop_releases_queued_frames_witness :
  released
    (effects_of
       (stop (mkCameraSource true 0 3 66000 true [frameB; frameC] [frameA]
                [33000; 66000] 0 0 0 0 200000 false)))
  = [frameB; frameC].
Proof.
  exact (proj1 (stop_releases_queued_frames
                  (mkCameraSource true 0 3 66000 true [frameB; frameC]
                     [frameA] [33000; 66000] 0 0 0 0 200000 false)
                  (mkCameraSource true 0 3 66000 false [] [frameA]
                     [33000; 66000] 0 0 2 0 200000 false)
                  eq_refl
                  ltac:(vm_compute; split; congruence)
                  ltac:(vm_compute; reflexivity))).
Defined.

(** X5.  [stop] goes to sleep on [mFrameCompleteCondition] exactly when a
    frame is with the encoder.  Asleep, it has flipped [mStarted] and
    emptied the queue but still holds the camera handle and has not run
    the check; woken while a frame is still out, it goes back to sleep
    and changes nothing. *)
Theorem stop_waits_for_encoder
    (s : CameraSource)
    (Hcamera : mCamera s = true) :
  (mFramesBeingEncoded s <> [] ->
   exists s1 tr,
     stop s = Wait FrameCompleteCondition s1 tr /\
     mCamera s1 = true /\ mStarted s1 = false /\ mFramesReceived s1 = [] /\
     mFramesBeingEncoded s1 = mFramesBeingEncoded s /\
     stop_drain s1
     = Wait FrameCompleteCondition s1
         [LogWaiting (Z.of_nat (List.length (mFramesBeingEncoded s)))]) /\
  (mFramesBeingEncoded s = [] ->
   forall c s1 tr, stop s <> Wait c s1 tr).
Proof.
  pose proof (stop_begin_live s Hcamera) as Hb. split.
  - intros Henc. unfold stop, bind. rewrite Hb.
    destruct s as [cam t0 r l started q [|f enc] ts f0 e d g thr stats];
      [contradiction|].
    cbn in Hcamera. subst cam. unfold stop_drain. unfold_monad.
    cbn -[Nat.iter]. do 2 eexists. split; [reflexivity|].
    cbn -[Nat.iter]. repeat split; reflexivity.
  - intros Henc c s1 tr H. unfold stop, bind in H. rewrite Hb in H.
    match type of H with
    | context [stop_drain ?s2] =>
        destruct (stop_drain s2) as [st s3 tr3| |c3 s3 tr3] eqn:Hd
    end; try discriminate.
    apply stop_drain_Wait in Hd. destruct Hd as (_ & _ & Hne).
    apply Hne. cbn. exact Henc.
Qed.

Lemma stop_waits_for_encoder_witness :
  exists s1 tr,
    stop (mkCameraSource true 0 1 0 true [] [frameA] [] 0 0 0 0 200000 false)
    = Wait FrameCompleteCondition s1 tr /\
    mCamera s1 = true.
Proof.
  destruct (proj1 (stop_waits_for_encoder
                     (mkCameraSource true 0 1 0 true [] [frameA] [] 0 0 0 0
                        200000 false)
                     eq_refl)
              ltac:(discriminate))
    as (s1 & tr & Hstop & Hcam & _).
  exists s1, tr. split; assumption.
Defined.

Lemma signalBufferReturned_found buffer s before it rest :
  mCamera s = true ->
  mFramesBeingEncoded s = before ++ it :: rest ->
  pointer it = data buffer ->
  (forall x, In x before -> pointer x <> data buffer) ->
  signalBufferReturned buffer s
  = Ret tt
      (set_mNumFramesEncoded (inc32 (mNumFramesEncoded s))
         (set_mFramesBeingEncoded (before ++ rest) s))
      [ReleaseRecordingFrame it; MediaBufferRelease (data buffer);
       SignalFrameComplete].
Proof.
  intros Hcam Hsplit Hit Hbefore.
  unfold signalBufferReturned. unfold_monad. cbn.
  rewrite Hsplit, (signalBufferReturned_scan_found _ _ _ _ [] s Hit Hbefore).
  destruct s; cbn in Hcam; subst; reflexivity.
Qed.

(** Returning the buffers of all frames with the encoder, in any order. *)
Lemma return_all skip (buffers : list MediaBuffer) :
  forall s,
    mCamera s = true ->
    NoDup (map pointer (mFramesBeingEncoded s)) ->
    Permutation (map data buffers) (map pointer (mFramesBeingEncoded s)) ->
    exists s',
      exec skip (map SignalBufferReturned buffers) s = Some s' /\
      s' = set_mNumFramesEncoded
             (Nat.iter (List.length buffers) inc32 (mNumFramesEncoded s))
             (set_mFramesBeingEncoded [] s) /\
      Permutation
        (released (exec_effects skip (map SignalBufferReturned buffers) s))
        (mFramesBeingEncoded s) /\
      map pointer
        (released (exec_effects skip (map SignalBufferReturned buffers) s))
      = map data buffers.
Proof.
  induction buffers as [|b buffers IH]; intros s Hcam Hnd Hperm.
  - cbn in Hperm. apply Permutation_nil in Hperm.
    apply map_eq_nil in Hperm. exists s. cbn.
    split; [reflexivity|]. rewrite Hperm.
    split; [|split; [constructor|reflexivity]].
    destruct s; cbn in *; subst; reflexivity.
  - cbn [map] in Hperm.
    assert (exists x, In x (mFramesBeingEncoded s) /\ pointer x = data b)
      as Hm.
    { assert (In (data b) (map pointer (mFramesBeingEncoded s))) as Hin
        by (eapply Permutation_in; [exact Hperm|left; reflexivity]).
      apply in_map_iff in Hin. destruct Hin as (x & Hx & Hin).
      exists x. split; assumption. }
    destruct (first_match _ _ Hm)
      as (before & it & rest & Hsplit & Hit & Hbefore).
    cbn [map exec exec_effects perform perform_effects].
    rewrite (signalBufferReturned_found b s before it rest
               Hcam Hsplit Hit Hbefore).
    cbn [after effects_of].
    rewrite Hsplit, map_app in Hperm, Hnd. cbn [map] in Hperm, Hnd.
    rewrite Hit in Hperm.
    apply Permutation_cons_app_inv in Hperm.
    apply NoDup_remove_1 in Hnd.
    rewrite <- map_app in Hperm, Hnd.
    destruct (IH (set_mNumFramesEncoded (inc32 (mNumFramesEncoded s))
                    (set_mFramesBeingEncoded (before ++ rest) s)))
      as (s' & Hrun & Hs' & Hrel & Hptr);
      [exact Hcam|exact Hnd|exact Hperm|].
    exists s'. split; [exact Hrun|].
    rewrite released_app, Hsplit.
    change (released [ReleaseRecordingFrame it; MediaBufferRelease (data b);
                      SignalFrameComplete]) with [it].
    cbn [app map]. split; [|split].
    + rewrite Hs'. cbn [List.length]. rewrite Nat.iter_succ_r.
      destruct s; reflexivity.
    + apply Permutation_cons_app. exact Hrel.
    + rewrite Hptr, Hit. reflexivity.
Qed.

(** X6.  Calls of [signalBufferReturned] made one after another for the
    buffers of all the frames with the encoder, in whatever order, all
    return (the camera handle is held, the addresses with the encoder are
    distinct and the encoded counter stays in range): each of those
    frames is handed back to the camera exactly once, in the order the
    buffers come back, [mFramesBeingEncoded] ends up empty, the encoded
    counter has grown by their number and nothing else has changed. *)
Theorem all_buffers_returned_in_any_order
    (skipCurrentFrame : Z -> bool) (buffers : list MediaBuffer)
    (s : CameraSource)
    (Hcamera : mCamera s = true)
    (Hdistinct : NoDup (map pointer (mFramesBeingEncoded s)))
    (Hall : Permutation (map data buffers)
              (map pointer (mFramesBeingEncoded s)))
    (Hrange : 0 <= mNumFramesEncoded s /\
              mNumFramesEncoded s + Z.of_nat (List.length buffers)
              <= INT32_MAX) :
  exists s',
    exec skipCurrentFrame (map SignalBufferReturned buffers) s = Some s' /\
    s' = set_mNumFramesEncoded
           (mNumFramesEncoded s + Z.of_nat (List.length buffers))
           (set_mFramesBeingEncoded [] s) /\
    Permutation
      (released
         (exec_effects skipCurrentFrame (map SignalBufferReturned buffers) s))
      (mFramesBeingEncoded s) /\
    map pointer
      (released
         (exec_effects skipCurrentFrame (map SignalBufferReturned buffers) s))
    = map data buffers.
Proof.
  destruct (return_all skipCurrentFrame buffers s Hcamera Hdistinct Hall)
    as (s' & Hrun & Hs' & Hrel & Hptr).
  destruct Hrange as [H0 Hmax].
  rewrite (iter_inc32_plain _ _ H0 Hmax) in Hs'.
  exists s'. repeat split; assumption.
Qed.

(** Three frames with the encoder, their buffers returned last first. *)
Lemma all_buffers_returned_in_any_order_witness :
  exists s',
    exec skipNone
      [SignalBufferReturned (bufferOf frameC 66000);
       SignalBufferReturned (bufferOf frameB 33000);
       SignalBufferReturned (bufferOf frameA 0)]
      (mkCameraSource true 0 3 66000 true [] [frameA; frameB; frameC] []
         0 0 0 0 200000 false)
    = Some s' /\
    mFramesBeingEncoded s' = [] /\ mNumFramesEncoded s' = 3.
Proof.
  destruct (all_buffers_returned_in_any_order skipNone
              [bufferOf frameC 66000; bufferOf frameB 33000;
               bufferOf frameA 0]
              (mkCameraSource true 0 3 66000 true [] [frameA; frameB; frameC]
                 [] 0 0 0 0 200000 false)
              eq_refl
              ltac:(repeat constructor; cbn; intuition discriminate)
              ltac:(cbn; apply Permutation_rev
                           with (l := [pointer frameC; pointer frameB;
                                       pointer frameA]))
              ltac:(vm_compute; split; congruence))
    as (s' & Hrun & Hs' & _).
  exists s'. split; [exact Hrun|]. rewrite Hs'. split; reflexivity.
Defined.

(** ** After stop *)

Lemma stopping_read_buffer options s :
  stopping s -> perform_buffer (Read options) s = [].
Proof.
  intros [Hst Hq]. open_state s. subst.
  destruct options as [[[seekTimeUs|]]|]; reflexivity.
Qed.

(** X7.  Once [stop] has been entered, and unless some thread calls
    [start], the source stays not-started with an empty queue whatever
    is called next: no [read] hands out a buffer any more, and a [read]
    without seek request returns OK with a NULL buffer. *)
Theorem stop_ends_the_stream
    (skipCurrentFrame : Z -> bool) (s s1 s2 : CameraSource)
    (calls : list call)
    (Hstop : after (stop s) = Some s1)
    (Hnostart : forallb (fun c => negb (is_Start c)) calls = true)
    (Hrun : exec skipCurrentFrame calls s1 = Some s2) :
  exec_buffers skipCurrentFrame calls s1 = [] /\
  mStarted s2 = false /\ mFramesReceived s2 = [] /\
  read None s2 = Ret (OK, None) s2 [].
Proof.
  assert (stopping s1) as Hs1.
  { apply stop_after in Hstop.
    destruct Hstop as (sb & trb & Hb & _ & Hs).
    apply stop_begin_stopping in Hb. destruct Hb as [Hst Hq].
    destruct Hs as [->| ->]; unfold stopping; cbn; auto. }
  clear Hstop s.
  assert (stopping s2) as Hs2
    by (eapply stopping_exec; [exact Hs1|exact Hnostart|exact Hrun]).
  split.
  - revert s1 Hs1 Hnostart Hrun.
    induction calls as [|c calls IH]; intros s1 Hs1 Hnostart Hrun;
      [reflexivity|].
    cbn [exec exec_buffers forallb] in *.
    apply andb_true_iff in Hnostart. destruct Hnostart as [Hc Hn].
    destruct (perform skipCurrentFrame c s1) as [s'|] eqn:Hp; [|discriminate].
    assert (perform_buffer c s1 = []) as ->.
    { destruct c; try reflexivity. apply stopping_read_buffer. exact Hs1. }
    cbn [app]. apply IH; [|exact Hn|exact Hrun].
    eapply stopping_perform; [exact Hs1| |exact Hp].
    destruct (is_Start c); [discriminate|reflexivity].
  - destruct Hs2 as [Hst Hq]. split; [exact Hst|]. split; [exact Hq|].
    open_state s2. subst. reflexivity.
Qed.

(** [stop] with a frame at the encoder, then a late frame, two reads and
    the buffer returned. *)
Lemma stop_ends_the_stream_witness :
  exec_buffers skipNone
    [DataCallbackTimestamp 99000 frameC; Read None;
     SignalBufferReturned (bufferOf frameA 0); Read None]
    (mkCameraSource true 0 2 33000 false [] [frameA] [33000] 0 0 1 0 200000
       false)
  = [].
Proof.
  exact (proj1 (stop_ends_the_stream skipNone
                  (mkCameraSource true 0 2 33000 true [frameB] [frameA]
                     [33000] 0 0 0 0 200000 false)
                  (mkCameraSource true 0 2 33000 false [] [frameA] [33000]
                     0 0 1 0 200000 false)
                  (mkCameraSource true 0 3 33000 false [] [] [33000] 0 1 2 0
                     200000 false)
                  [DataCallbackTimestamp 99000 frameC; Read None;
                   SignalBufferReturned (bufferOf frameA 0); Read None]
                  ltac:(vm_compute; reflexivity)
                  eq_refl
                  ltac:(vm_compute; reflexivity))).
Defined.

(** A source without camera handle that is not started stays so. *)
Lemma dead_perform skip c s s' :
  mCamera s = false -> mStarted s = false ->
  perform skip c s = Some s' ->
  mCamera s' = false /\ mStarted s' = false.
Proof.
  intros Hcam Hst H. destruct c; cbn [perform] in H.
  - open_state s. subst. run_call; close_after.
  - open_state s. subst. run_call; close_after.
  - open_state s. subst. run_call; close_after; cbn; auto.
  - apply signalBufferReturned_after in H.
    destruct H as (before & it & rest & _ & _ & ->). cbn. auto.
  - apply stop_after in H. destruct H as (s1 & tr1 & _ & Hcam' & _).
    congruence.
  - destruct (stop_drain s) as [a s1 tr| |c s1 tr] eqn:Hd; cbn in H;
      try discriminate; injection H as <-.
    + apply stop_drain_Ret in Hd. destruct Hd as (_ & -> & _). cbn. auto.
    + apply stop_drain_Wait in Hd. destruct Hd as (_ & -> & _). auto.
Qed.

(** X8.  A source whose [stop] has returned at once, or has returned from
    its wait with [mStarted] still false (no thread called [start]
    meanwhile), is finished.  [stop] has set [mCamera] to NULL: a second
    [stop], a [start] and a late frame callback all go through the NULL
    handle and fault, and no sequence of calls that runs through starts
    it again.  [read] still answers OK with a NULL buffer, and the
    destructor does nothing. *)
Theorem stopped_source_is_finished
    (skipCurrentFrame : Z -> bool) (s s' : CameraSource) (st : status_t)
    (tr : list effect)
    (Hstop : stop s = Ret st s' tr \/
             (mStarted s = false /\ stop_drain s = Ret st s' tr)) :
  mCamera s' = false /\ mStarted s' = false /\
  stop s' = Fault NullCamera /\
  (forall recordStats meta cameraStatus,
      start recordStats meta cameraStatus s' = Fault NullCamera) /\
  (forall timestampUs frame,
      dataCallbackTimestamp skipCurrentFrame timestampUs frame s'
      = Fault NullCamera) /\
  read None s' = Ret (OK, None) s' [] /\
  delete_CameraSource s' = Ret tt s' [] /\
  (forall calls s'',
      exec skipCurrentFrame calls s' = Some s'' ->
      mCamera s'' = false /\ mStarted s'' = false).
Proof.
  assert (mCamera s' = false /\ mStarted s' = false) as [Hcam Hst].
  { destruct Hstop as [H|[Hst H]].
    - unfold stop, bind in H.
      destruct (stop_begin s) as [[] s1 tr1| |] eqn:Hb; try discriminate.
      destruct (stop_drain s1) as [st2 s2 tr2| |] eqn:Hd; try discriminate.
      injection H as _ <- _.
      apply stop_drain_Ret in Hd. destruct Hd as (_ & -> & _).
      apply stop_begin_stopping in Hb. destruct Hb as [Hst _].
      cbn. auto.
    - apply stop_drain_Ret in H. destruct H as (_ & -> & _). cbn. auto. }
  clear Hstop. split; [exact Hcam|]. split; [exact Hst|].
  split; [|split; [|split; [|split; [|split]]]].
  - unfold stop, bind. rewrite (stop_begin_null s' Hcam). reflexivity.
  - intros recordStats meta cameraStatus. open_state s'. subst.
    destruct recordStats; destruct meta as [[[t|]]|]; reflexivity.
  - intros timestampUs frame. open_state s'. subst. reflexivity.
  - open_state s'. subst. reflexivity.
  - open_state s'. subst. reflexivity.
  - intros calls. revert s' Hcam Hst.
    induction calls as [|c calls IH]; cbn [exec]; intros s' Hcam Hst s'' H.
    + injection H as <-. auto.
    + destruct (perform skipCurrentFrame c s') as [s1|] eqn:Hp;
        [|discriminate].
      destruct (dead_perform _ _ _ _ Hcam Hst Hp) as [Hcam1 Hst1].
      exact (IH s1 Hcam1 Hst1 s'' H).
Qed.

Lemma stopped_source_is_finished_witness :
  stop (mkCameraSource false 0 1 0 false [] [] [0] 0 0 1 0 200000 false)
  = Fault NullCamera /\
  start false None OK
    (mkCameraSource false 0 1 0 false [] [] [0] 0 0 1 0 200000 false)
  = Fault NullCamera.
Proof.
  destruct (stopped_source_is_finished skipNone
              (mkCameraSource true 0 1 0 true [frameA] [] [0] 0 0 0 0 200000
                 false)
              (mkCameraSource false 0 1 0 false [] [] [0] 0 0 1 0 200000
                 false)
              OK
              [SignalFrameAvailable; SetListener false; StopRecording;
               ReleaseRecordingFrame frameA]
              ltac:(left; vm_compute; reflexivity))
    as (_ & _ & Hstop & Hstart & _).
  split; [exact Hstop|apply Hstart].
Defined.

(** ** Starting *)

(** X9.  [start] returns exactly when the source is not started, the
    camera handle is there and the camera answers [startRecording] with
    OK.  It then returns OK, having registered the listener before it
    asked the camera to record; [mStartTimeUs] is the [kKeyTime] of the
    meta data, or 0 without one, whatever it was before;
    [mCollectStats] is switched on by the property and never off; the
    counters, the queue and the frames with the encoder are as before. *)
Theorem start_returns_iff
    (recordStats : bool) (meta : option MetaData) (cameraStatus : status_t)
    (s : CameraSource) :
  ((exists st s' tr, start recordStats meta cameraStatus s = Ret st s' tr)
   <-> (mStarted s = false /\ mCamera s = true /\ cameraStatus = OK)) /\
  (forall st s' tr,
      start recordStats meta cameraStatus s = Ret st s' tr ->
      st = OK /\ tr = [SetListener true; StartRecording] /\
      s' = set_mStarted true
             (set_mStartTimeUs
                match meta with
                | Some {| findInt64_kKeyTime := Some startTimeUs |} =>
                    startTimeUs
                | _ => 0
                end
                (set_mCollectStats (mCollectStats s || recordStats) s))) /\
  (forall c s' tr,
      start recordStats meta cameraStatus s <> Wait c s' tr).
Proof.
  open_state s. split; [split|split].
  - intros (st & s' & tr & H).
    destruct cameraStatus as [| |code]; destruct started; destruct cam;
      destruct recordStats; destruct meta as [[[t|]]|];
      cbn in H; try discriminate H; auto.
  - intros (-> & -> & ->).
    destruct recordStats; destruct meta as [[[t|]]|]; cbn;
      do 3 eexists; reflexivity.
  - intros st s' tr H.
    destruct cameraStatus as [| |code]; destruct started; destruct cam;
      destruct recordStats; destruct meta as [[[t|]]|]; destruct stats;
      cbn in H; try discriminate H; injection H as <- <- <-;
      repeat split; reflexivity.
  - intros c s' tr H.
    destruct cameraStatus as [| |code]; destruct started; destruct cam;
      destruct recordStats; destruct meta as [[[t|]]|];
      cbn in H; discriminate H.
Qed.

(** ** The queue is first in, first out *)

Lemma reads_in_order skip n :
  forall s,
    mStarted s = true ->
    (n <= List.length (mFramesReceived s))%nat ->
    (n <= List.length (mFrameTimes s))%nat ->
    exec skip (repeat (Read None) n) s
    = Some (set_mFramesBeingEncoded
              (mFramesBeingEncoded s ++ firstn n (mFramesReceived s))
              (set_mFrameTimes (skipn n (mFrameTimes s))
                 (set_mFramesReceived (skipn n (mFramesReceived s)) s))) /\
    exec_buffers skip (repeat (Read None) n) s
    = map (fun p => bufferOf (fst p) (snd p))
        (combine (firstn n (mFramesReceived s)) (firstn n (mFrameTimes s))).
Proof.
  induction n as [|n IH]; intros s Hst Hq Ht.
  - open_state s. cbn. rewrite app_nil_r. split; reflexivity.
  - destruct s as [cam t0 r l started q enc ts f0 e d g thr stats].
    cbn in Hst, Hq, Ht. subst started.
    cbn [mFramesReceived mFramesBeingEncoded mFrameTimes
         set_mFramesBeingEncoded set_mFrameTimes set_mFramesReceived
         mCamera mStartTimeUs mNumFramesReceived mLastFrameTimestampUs
         mStarted mFirstFrameTimeUs mNumFramesEncoded mNumFramesDropped
         mNumGlitches mGlitchDurationThresholdUs mCollectStats].
    destruct q as [|f q]; [cbn in Hq; lia|].
    destruct ts as [|t ts]; [cbn in Ht; lia|].
    cbn in Hq, Ht.
    cbn [repeat exec exec_buffers perform perform_buffer].
    rewrite (read_first_pair f q t ts
               (mkCameraSource cam t0 r l true (f :: q) enc (t :: ts) f0 e d
                  g thr stats)
               eq_refl eq_refl eq_refl).
    cbn [after set_mFramesBeingEncoded set_mFrameTimes set_mFramesReceived
         mCamera mStartTimeUs mNumFramesReceived mLastFrameTimestampUs
         mStarted mFramesReceived mFramesBeingEncoded mFrameTimes
         mFirstFrameTimeUs mNumFramesEncoded mNumFramesDropped mNumGlitches
         mGlitchDurationThresholdUs mCollectStats].
    cbv beta iota.
    destruct (IH (mkCameraSource cam t0 r l true q (enc ++ [f]) ts f0 e d g
                    thr stats)) as [Hrun Hbuf];
      [reflexivity|cbn; lia|cbn; lia|].
    rewrite Hrun, Hbuf. cbn. rewrite <- app_assoc. split; reflexivity.
Qed.

(** X10.  On a started source, [n] reads, with at least [n] frames queued,
    hand out the first [n] frames in the order of the queue, the i-th
    frame wrapped with its address, its size and the i-th time, and put
    them at the end of [mFramesBeingEncoded] in that order; what is left
    of the queue keeps its order.  A read from the emptied queue waits on
    [mFrameAvailableCondition]. *)
Theorem reads_hand_out_frames_in_order
    (skipCurrentFrame : Z -> bool) (n : nat) (s : CameraSource)
    (Hstarted : mStarted s = true)
    (Hframes : (n <= List.length (mFramesReceived s))%nat)
    (Htimes : (n <= List.length (mFrameTimes s))%nat) :
  exists s',
    exec skipCurrentFrame (repeat (Read None) n) s = Some s' /\
    exec_buffers skipCurrentFrame (repeat (Read None) n) s
    = map (fun p => bufferOf (fst p) (snd p))
        (combine (firstn n (mFramesReceived s)) (firstn n (mFrameTimes s))) /\
    mFramesBeingEncoded s'
    = mFramesBeingEncoded s ++ firstn n (mFramesReceived s) /\
    mFramesReceived s' = skipn n (mFramesReceived s) /\
    mFrameTimes s' = skipn n (mFrameTimes s) /\
    (n = List.length (mFramesReceived s) ->
     read None s' = Wait FrameAvailableCondition s' []).
Proof.
  destruct (reads_in_order skipCurrentFrame n s Hstarted Hframes Htimes)
    as [Hrun Hbuf].
  eexists. split; [exact Hrun|]. split; [exact Hbuf|].
  cbn. repeat split; try reflexivity.
  intros ->. rewrite skipn_all. open_state s. subst started. reflexivity.
Qed.

Lemma reads_hand_out_frames_in_order_witness :
  exec_buffers skipNone [Read None; Read None]
    (mkCameraSource true 0 3 66000 true [frameA; frameB; frameC] []
       [0; 33000; 66000] 0 0 0 0 200000 false)
  = [bufferOf frameA 0; bufferOf frameB 33000].
Proof.
  destruct (reads_hand_out_frames_in_order skipNone 2
              (mkCameraSource true 0 3 66000 true [frameA; frameB; frameC] []
                 [0; 33000; 66000] 0 0 0 0 200000 false)
              eq_refl ltac:(cbn; lia) ltac:(cbn; lia))
    as (s' & _ & Hbuf & _).
  exact Hbuf.
Defined.

(** ** Frames come out as they went in *)

Lemma dataCallbackTimestamp_queued skip timestampUs frame s :
  mStarted s = true ->
  skip timestampUs = false ->
  (mNumFramesReceived s = 0 -> mStartTimeUs s > 0 ->
   mStartTimeUs s <= timestampUs) ->
  exists tr,
    dataCallbackTimestamp skip timestampUs frame s
    = Ret tt (queued timestampUs frame s) tr.
Proof.
  open_state s. intros -> Hkeep Haccept.
  unfold dataCallbackTimestamp, detectGlitch, firstFrameGate, queueFrame,
    queued, glitch.
  unfold_monad. cbn. rewrite Hkeep.
  repeat (break_branch; cbn); try (exfalso; lia);
    try discriminate; eexists; reflexivity.
Qed.

Lemma combine_snoc {A B} (l : list A) (l' : list B) (a : A) (b : B) :
  List.length l = List.length l' ->
  combine (l ++ [a]) (l' ++ [b]) = combine l l' ++ [(a, b)].
Proof.
  revert l'. induction l as [|x l IH]; intros [|y l'] H; cbn in *;
    try discriminate; [reflexivity|].
  rewrite IH by congruence. reflexivity.
Qed.

(** X11.  A frame the callback accepts comes back out of [read] after the
    frames that were queued before it and before any other: the
    [MediaBuffer] has the frame's address and size and, under
    [kKeyTime], the time that was computed when the frame arrived.  (The
    source is started, the queue pairs frames and times, the hook keeps
    the frame, and it is not a first frame from before the start
    time.) *)
Theorem queued_frame_is_read_back
    (skipCurrentFrame : Z -> bool) (timestampUs : Z) (frame : IMemory)
    (s : CameraSource)
    (Hstarted : mStarted s = true)
    (Hpaired : paired s)
    (Hkeep : skipCurrentFrame timestampUs = false)
    (Haccept : mNumFramesReceived s = 0 -> mStartTimeUs s > 0 ->
               mStartTimeUs s <= timestampUs) :
  exists s1 tr,
    dataCallbackTimestamp skipCurrentFrame timestampUs frame s
    = Ret tt s1 tr /\
    exec_buffers skipCurrentFrame
      (repeat (Read None) (S (List.length (mFramesReceived s)))) s1
    = map (fun p => bufferOf (fst p) (snd p))
        (combine (mFramesReceived s) (mFrameTimes s))
      ++ [bufferOf frame
            (add64 (mStartTimeUs s1)
               (sub64 timestampUs (mFirstFrameTimeUs s1)))].
Proof.
  destruct (dataCallbackTimestamp_queued skipCurrentFrame timestampUs frame s
              Hstarted Hkeep Haccept) as [tr Hrun].
  exists (queued timestampUs frame s), tr. split; [exact Hrun|].
  destruct (reads_in_order skipCurrentFrame
              (S (List.length (mFramesReceived s)))
              (queued timestampUs frame s)) as [_ Hbuf].
  - exact Hstarted.
  - cbn. rewrite length_app. cbn. lia.
  - cbn. rewrite length_app. cbn. unfold paired in Hpaired. lia.
  - rewrite Hbuf. cbn [queued mFramesReceived mFrameTimes mStartTimeUs
                       mFirstFrameTimeUs].
    rewrite !firstn_all2 by (rewrite length_app; cbn;
                            unfold paired in Hpaired; lia).
    rewrite combine_snoc by exact Hpaired.
    rewrite map_app. reflexivity.
Qed.

Lemma queued_frame_is_read_back_witness :
  exists s1 tr,
    dataCallbackTimestamp skipNone 66000 frameC
      (mkCameraSource true 0 2 33000 true [frameB] [frameA] [33000] 0 0 0 0
         200000 false)
    = Ret tt s1 tr /\
    exec_buffers skipNone [Read None; Read None] s1
    = [bufferOf frameB 33000; bufferOf frameC 66000].
Proof.
  destruct (queued_frame_is_read_back skipNone 66000 frameC
              (mkCameraSource true 0 2 33000 true [frameB] [frameA] [33000]
                 0 0 0 0 200000 false)
              eq_refl eq_refl eq_refl ltac:(cbn; lia))
    as (s1 & tr & Hrun & Hbuf).
  exists s1, tr. split; [exact Hrun|].
  cbn [repeat List.length mFramesReceived] in Hbuf. rewrite Hbuf.
  vm_compute in Hrun. injection Hrun as <- _. vm_compute. reflexivity.
Defined.

(** ** Presentation times keep the spacing of the capture timestamps *)

Lemma arrive_steady skip (arrivals : list (Z * IMemory)) :
  forall s,
    mStarted s = true ->
    (forall a, In a arrivals -> skip (fst a) = false) ->
    0 < mNumFramesReceived s ->
    mNumFramesReceived s + Z.of_nat (List.length arrivals) <= INT32_MAX ->
    exists s',
      exec skip (arrive arrivals) s = Some s' /\
      mFramesReceived s' = mFramesReceived s ++ map snd arrivals /\
      mFrameTimes s'
      = mFrameTimes s
        ++ map (fun a => add64 (mStartTimeUs s)
                           (sub64 (fst a) (mFirstFrameTimeUs s))) arrivals /\
      mStartTimeUs s' = mStartTimeUs s /\
      mFirstFrameTimeUs s' = mFirstFrameTimeUs s /\
      mNumFramesReceived s'
      = mNumFramesReceived s + Z.of_nat (List.length arrivals).
Proof.
  induction arrivals as [|[ts0 f] arrivals IH]; intros s Hst Hkeep Hr Hmax.
  - exists s. cbn. rewrite !app_nil_r. repeat split; try reflexivity. lia.
  - destruct (dataCallbackTimestamp_queued skip ts0 f s Hst) as [tr Hrun].
    { apply (Hkeep (ts0, f)). left. reflexivity. }
    { intros H0. lia. }
    cbn [List.length] in Hmax. rewrite Nat2Z.inj_succ in Hmax.
    assert (inc32 (mNumFramesReceived s) = mNumFramesReceived s + 1) as Hinc
      by (apply inc32_succ; unfold INT32_MAX in *; lia).
    assert ((mNumFramesReceived s =? 0) = false) as Hr0 by lia.
    destruct (IH (queued ts0 f s)) as (s' & Hexec & Hq & Ht & HS & HF & HR).
    + exact Hst.
    + intros a Ha. apply Hkeep. right. exact Ha.
    + cbn [queued mNumFramesReceived]. rewrite Hinc. lia.
    + cbn [queued mNumFramesReceived]. rewrite Hinc. lia.
    + exists s'. cbn [arrive map exec perform fst snd].
      rewrite Hrun. cbn [after]. fold (arrive arrivals).
      split; [exact Hexec|].
      cbn [queued mFramesReceived mFrameTimes mStartTimeUs mFirstFrameTimeUs
             mNumFramesReceived] in Hq, Ht, HS, HF, HR.
      rewrite Hr0 in Ht, HS, HF. cbn [andb] in Ht, HS, HF.
      rewrite Hq, Ht, HS, HF, HR, Hinc, <- !app_assoc.
      cbn [List.length map app fst snd].
      repeat split; try reflexivity. lia.
Qed.

(** X12.  Once a frame has been received, the frames the callback accepts
    are queued in arrival order, each with the time
    [mStartTimeUs + (timestampUs - mFirstFrameTimeUs)], and
    [mStartTimeUs] and [mFirstFrameTimeUs] do not change any more: as
    long as the [int64_t] arithmetic does not overflow, two queued times
    differ by what the capture timestamps differ by, so times are in
    order when the capture timestamps are. *)
Theorem queued_times_keep_spacing
    (skipCurrentFrame : Z -> bool) (arrivals : list (Z * IMemory))
    (s : CameraSource)
    (Hstarted : mStarted s = true)
    (Hkeep : forall a, In a arrivals -> skipCurrentFrame (fst a) = false)
    (Hreceived : 0 < mNumFramesReceived s)
    (Hrange : mNumFramesReceived s + Z.of_nat (List.length arrivals)
              <= INT32_MAX) :
  (exists s',
      exec skipCurrentFrame (arrive arrivals) s = Some s' /\
      mFramesReceived s' = mFramesReceived s ++ map snd arrivals /\
      mFrameTimes s'
      = mFrameTimes s
        ++ map (fun a => add64 (mStartTimeUs s)
                           (sub64 (fst a) (mFirstFrameTimeUs s))) arrivals /\
      mStartTimeUs s' = mStartTimeUs s /\
      mFirstFrameTimeUs s' = mFirstFrameTimeUs s) /\
  (forall t1 t2,
      in64 (t1 - mFirstFrameTimeUs s) ->
      in64 (t2 - mFirstFrameTimeUs s) ->
      in64 (mStartTimeUs s + (t1 - mFirstFrameTimeUs s)) ->
      in64 (mStartTimeUs s + (t2 - mFirstFrameTimeUs s)) ->
      add64 (mStartTimeUs s) (sub64 t2 (mFirstFrameTimeUs s))
      - add64 (mStartTimeUs s) (sub64 t1 (mFirstFrameTimeUs s))
      = t2 - t1).
Proof.
  split.
  - destruct (arrive_steady skipCurrentFrame arrivals s
                Hstarted Hkeep Hreceived Hrange)
      as (s' & Hexec & Hq & Ht & HS & HF & _).
    exists s'. repeat split; assumption.
  - intros t1 t2 H1 H2 H3 H4. unfold add64, sub64.
    rewrite (wrap64_id _ H1), (wrap64_id _ H2),
      (wrap64_id _ H3), (wrap64_id _ H4). lia.
Qed.

Lemma queued_times_keep_spacing_witness :
  exists s',
    exec skipNone (arrive [(153000, frameB); (186000, frameC)])
      (mkCameraSource true 20000 1 120000 true [frameA] [] [20000] 120000 0
         0 0 200000 false)
    = Some s' /\
    mFrameTimes s' = [20000; 53000; 86000].
Proof.
  destruct (proj1 (queued_times_keep_spacing skipNone
                     [(153000, frameB); (186000, frameC)]
                     (mkCameraSource true 20000 1 120000 true [frameA] []
                        [20000] 120000 0 0 0 200000 false)
                     eq_refl
                     ltac:(intros; reflexivity)
                     ltac:(cbn; lia)
                     ltac:(vm_compute; congruence)))
    as (s' & Hexec & _ & Ht & _).
  exists s'. split; [exact Hexec|]. rewrite Ht. reflexivity.
Defined.

(** ** No frame is lost and none is released twice *)

Lemma signalBufferReturned_outcome buffer s :
  (exists before it rest,
      mFramesBeingEncoded s = before ++ it :: rest /\
      signalBufferReturned buffer s
      = Ret tt
          (set_mNumFramesEncoded (inc32 (mNumFramesEncoded s))
             (set_mFramesBeingEncoded (before ++ rest) s))
          [ReleaseRecordingFrame it; MediaBufferRelease (data buffer);
           SignalFrameComplete]) \/
  (exists f, signalBufferReturned buffer s = Fault f).
Proof.
  destruct (match_or_bogus (data buffer) (mFramesBeingEncoded s)) as [Hm|Hb].
  - destruct (first_match _ _ Hm)
      as (before & it & rest & Hsplit & Hit & Hbefore).
    destruct (mCamera s) eqn:Hcam.
    + left. exists before, it, rest. split; [exact Hsplit|].
      apply signalBufferReturned_found; assumption.
    + right. exists NullCamera.
      unfold signalBufferReturned. unfold_monad. cbn.
      rewrite Hsplit,
        (signalBufferReturned_scan_found _ _ _ _ [] s Hit Hbefore), Hcam.
      reflexivity.
  - right. eexists. unfold signalBufferReturned. unfold_monad. cbn.
    rewrite (signalBufferReturned_scan_bogus _ _ [] s Hb). reflexivity.
Qed.

Lemma stop_released s :
  mCamera s = true ->
  released (effects_of (stop s))
  = match stop s with Fault _ => [] | _ => mFramesReceived s end.
Proof.
  intros Hcam.
  destruct (stop_effects s Hcam) as (s1 & tr2 & _ & _ & Htr2 & _ & Heff).
  rewrite Heff. destruct (stop s); [|reflexivity|];
    rewrite released_app, released_stop_prefix, Htr2, app_nil_r;
    reflexivity.
Qed.

Ltac count_frames :=
  cbn -[IMemory_eq_dec]; rewrite ?count_occ_app; cbn -[IMemory_eq_dec];
  repeat match goal with
         | |- context [IMemory_eq_dec ?a ?b] => destruct (IMemory_eq_dec a b)
         end;
  first [lia | contradiction].

Lemma conserved_perform skip c s s' (x : IMemory) :
  perform skip c s = Some s' ->
  (count_occ IMemory_eq_dec (delivered [c]) x
   + count_occ IMemory_eq_dec (mFramesReceived s) x
   + count_occ IMemory_eq_dec (mFramesBeingEncoded s) x
   = count_occ IMemory_eq_dec (released (perform_effects skip c s)) x
     + count_occ IMemory_eq_dec (mFramesReceived s') x
     + count_occ IMemory_eq_dec (mFramesBeingEncoded s') x)%nat.
Proof.
  intros H. destruct c; cbn [perform perform_effects] in *.
  - open_state s. run_call; close_after; count_frames.
  - open_state s. run_call; close_after; count_frames.
  - open_state s. run_call; close_after; count_frames.
  - destruct (signalBufferReturned_outcome buffer s)
      as [(before & it & rest & Hsplit & Hret)|[f Hf]].
    + rewrite Hret in H |- *. cbn in H. injection H as <-.
      rewrite Hsplit. count_frames.
    + rewrite Hf in H. discriminate.
  - pose proof H as Hafter. apply stop_after in Hafter.
    destruct Hafter as (s1 & tr1 & Hb & Hcam & Hs').
    rewrite (stop_released s Hcam).
    rewrite (stop_begin_live s Hcam) in Hb. injection Hb as <- _.
    destruct (stop s); cbn in H; try discriminate;
      destruct Hs' as [->| ->]; count_frames.
  - rewrite stop_drain_releases_nothing.
    destruct (stop_drain s) as [a s1 tr| |c s1 tr] eqn:Hd; cbn in H;
      try discriminate; injection H as <-.
    + apply stop_drain_Ret in Hd. destruct Hd as (_ & -> & _). count_frames.
    + apply stop_drain_Wait in Hd. destruct Hd as (_ & -> & _). count_frames.
Qed.

Lemma conserved_exec skip calls (x : IMemory) :
  forall s s',
    exec skip calls s = Some s' ->
    (count_occ IMemory_eq_dec (delivered calls) x
     + count_occ IMemory_eq_dec (mFramesReceived s) x
     + count_occ IMemory_eq_dec (mFramesBeingEncoded s) x
     = count_occ IMemory_eq_dec (released (exec_effects skip calls s)) x
       + count_occ IMemory_eq_dec (mFramesReceived s') x
       + count_occ IMemory_eq_dec (mFramesBeingEncoded s') x)%nat.
Proof.
  induction calls as [|c calls IH]; intros s s' H.
  - cbn in H. injection H as <-. cbn. lia.
  - cbn [exec exec_effects] in *.
    destruct (perform skip c s) as [s1|] eqn:Hp; [|discriminate].
    pose proof (conserved_perform skip c s s1 x Hp) as Hc.
    pose proof (IH s1 s' H) as Hi.
    assert (delivered (c :: calls) = delivered [c] ++ delivered calls) as ->
      by (unfold delivered; cbn; rewrite app_nil_r; reflexivity).
    rewrite released_app, !count_occ_app. lia.
Qed.

(** X13.  In every run of a constructed source the frames the camera has
    delivered are, counted with repetitions, exactly the frames handed
    back by [releaseRecordingFrame] together with the frames still
    queued and the frames with the encoder.  So no frame is handed back
    that was not delivered, none more often than it was delivered, and
    with nothing queued and nothing at the encoder every delivered frame
    has been handed back. *)
Theorem frames_conserved
    (skipCurrentFrame : Z -> bool) (frameRate startTimeUs0 : Z)
    (calls : list call) (s0 s : CameraSource)
    (Hnew : new_CameraSource frameRate startTimeUs0 = Some s0)
    (Hrun : exec skipCurrentFrame calls s0 = Some s) :
  Permutation (delivered calls)
    (released (exec_effects skipCurrentFrame calls s0)
     ++ mFramesReceived s ++ mFramesBeingEncoded s) /\
  (forall frame,
      In frame (released (exec_effects skipCurrentFrame calls s0)) ->
      In frame (delivered calls)) /\
  (forall frame,
      (count_occ IMemory_eq_dec
         (released (exec_effects skipCurrentFrame calls s0)) frame
       <= count_occ IMemory_eq_dec (delivered calls) frame)%nat) /\
  (mFramesReceived s = [] -> mFramesBeingEncoded s = [] ->
   Permutation (delivered calls)
     (released (exec_effects skipCurrentFrame calls s0))).
Proof.
  assert (forall x,
             count_occ IMemory_eq_dec (delivered calls) x
             = count_occ IMemory_eq_dec
                 (released (exec_effects skipCurrentFrame calls s0)
                  ++ mFramesReceived s ++ mFramesBeingEncoded s) x) as Hcount.
  { intros x.
    pose proof (conserved_exec skipCurrentFrame calls x s0 s Hrun) as H.
    unfold new_CameraSource in Hnew.
    destruct (frameRate =? 0); [discriminate|]. injection Hnew as <-.
    cbn in H. rewrite !count_occ_app. lia. }
  assert (Permutation (delivered calls)
            (released (exec_effects skipCurrentFrame calls s0)
             ++ mFramesReceived s ++ mFramesBeingEncoded s)) as Hperm
    by (apply (Permutation_count_occ IMemory_eq_dec); exact Hcount).
  split; [exact Hperm|]. split; [|split].
  - intros frame Hin. eapply Permutation_in.
    + apply Permutation_sym. exact Hperm.
    + apply in_or_app. left. exact Hin.
  - intros frame. rewrite (Hcount frame), count_occ_app. lia.
  - intros Hq Henc. rewrite Hq, Henc, app_nil_r in Hperm. exact Hperm.
Qed.

(** Three frames: one skipped by the hook, one read and returned, one
    dropped by [stop]. *)
Lemma frames_conserved_witness :
  Permutation [frameA; frameC; frameB] [frameC; frameA; frameB].
Proof.
  exact (proj2 (proj2 (proj2
           (frames_conserved skipLater 30 0
              [Start false None OK;
               DataCallbackTimestamp 0 frameA;
               DataCallbackTimestamp 33000 frameC;
               Read None;
               DataCallbackTimestamp 0 frameB;
               SignalBufferReturned (bufferOf frameA 0);
               Stop]
              source30
              (mkCameraSource false 0 2 0 false [] [] [0] 0 1 1 0 200000
                 false)
              eq_refl
              ltac:(vm_compute; reflexivity))))
           eq_refl eq_refl).
Defined.

(** ** The queue pairs frames with times until stop *)

Lemma paired_perform skip c s s' :
  is_Stop c = false -> paired s -> perform skip c s = Some s' -> paired s'.
Proof.
  intros Hc Hp H. destruct c; cbn in Hc; try discriminate;
    cbn [perform] in H.
  - open_state s. unfold paired in *; cbn in *.
    run_call; close_after; cbn; exact Hp.
  - eapply paired_dataCallbackTimestamp; eassumption.
  - eapply paired_read; eassumption.
  - apply signalBufferReturned_after in H.
    destruct H as (before & it & rest & _ & _ & ->). exact Hp.
Qed.

(** X14.  In a run of a constructed source in which [stop] has not been
    called, [mFramesReceived] and [mFrameTimes] have the same length
    after every call: each queued frame has its time at the same
    position. *)
Theorem paired_until_stop
    (skipCurrentFrame : Z -> bool) (frameRate startTimeUs0 : Z)
    (calls : list call) (s0 s : CameraSource)
    (Hnew : new_CameraSource frameRate startTimeUs0 = Some s0)
    (Hnostop : forallb (fun c => negb (is_Stop c)) calls = true)
    (Hrun : exec skipCurrentFrame calls s0 = Some s) :
  paired s.
Proof.
  assert (paired s0) as Hp0.
  { unfold new_CameraSource in Hnew.
    destruct (frameRate =? 0); [discriminate|]. injection Hnew as <-.
    reflexivity. }
  clear Hnew. revert s0 Hp0 Hnostop Hrun.
  induction calls as [|c calls IH]; cbn [exec forallb];
    intros s0 Hp0 Hnostop Hrun.
  - injection Hrun as <-. exact Hp0.
  - apply andb_true_iff in Hnostop. destruct Hnostop as [Hc Hn].
    destruct (perform skipCurrentFrame c s0) as [s1|] eqn:Hp; [|discriminate].
    apply (IH s1); [|exact Hn|exact Hrun].
    eapply paired_perform; [|exact Hp0|exact Hp].
    destruct (is_Stop c); [discriminate|reflexivity].
Qed.

Lemma paired_until_stop_witness :
  paired
    (mkCameraSource true 0 3 66000 true [frameB; frameC] [frameA]
       [33000; 66000] 0 0 0 0 200000 false).
Proof.
  exact (paired_until_stop skipNone 30 0
           [Start false None OK;
            DataCallbackTimestamp 0 frameA;
            DataCallbackTimestamp 33000 frameB;
            Read None;
            DataCallbackTimestamp 66000 frameC]
           source30
           (mkCameraSource true 0 3 66000 true [frameB; frameC] [frameA]
              [33000; 66000] 0 0 0 0 200000 false)
           eq_refl eq_refl ltac:(vm_compute; reflexivity)).
Defined.

(** ** The callback *)

(** X15.  With the camera handle in place the frame callback always
    returns: it never waits and never fails a check.  The frame it was
    given is either handed back to the camera at once, the queue being as
    before, or appended to the queue with a time and not handed back;
    nothing else is handed back, and the frames with the encoder and the
    encoded counter are not touched. *)
Theorem callback_releases_or_queues
    (skipCurrentFrame : Z -> bool) (timestampUs : Z) (frame : IMemory)
    (s : CameraSource)
    (Hcamera : mCamera s = true) :
  exists s' tr,
    dataCallbackTimestamp skipCurrentFrame timestampUs frame s
    = Ret tt s' tr /\
    ((released tr = [frame] /\
      mFramesReceived s' = mFramesReceived s /\
      mFrameTimes s' = mFrameTimes s) \/
     (released tr = [] /\
      mFramesReceived s' = mFramesReceived s ++ [frame] /\
      exists timeUs, mFrameTimes s' = mFrameTimes s ++ [timeUs])) /\
    mFramesBeingEncoded s' = mFramesBeingEncoded s /\
    mNumFramesEncoded s' = mNumFramesEncoded s /\
    mStarted s' = mStarted s /\ mCamera s' = true.
Proof.
  open_state s. subst cam.
  unfold dataCallbackTimestamp, detectGlitch, firstFrameGate, queueFrame.
  unfold_monad. cbn.
  repeat (break_branch; cbn);
    do 2 eexists; (split; [reflexivity|]); cbn;
    (split; [first [left; repeat split; reflexivity
                   |right; split; [reflexivity|];
                    split; [reflexivity|]; eexists; reflexivity]|]);
    repeat split; reflexivity.
Qed.

Lemma callback_releases_or_queues_witness :
  exists s' tr,
    dataCallbackTimestamp skipLater 33000 frameB
      (mkCameraSource true 0 1 0 true [frameA] [] [0] 0 0 0 0 200000 false)
    = Ret tt s' tr /\
    mFramesBeingEncoded s' = [].
Proof.
  destruct (callback_releases_or_queues skipLater 33000 frameB
              (mkCameraSource true 0 1 0 true [frameA] [] [0] 0 0 0 0 200000
                 false)
              eq_refl)
    as (s' & tr & Hrun & _ & Henc & _).
  exists s', tr. split; assumption.
Defined.

(** ** The destructor *)

(** X16.  Destroying a source that is still started, in a state a run of a
    constructed source has reached, with the camera handle in place and
    no frame at the encoder, stops it: the queued frames are handed back,
    the check at the end of [stop] holds, and the destructor returns with
    the source not started and the camera handle given up.  A source that
    is not started is left alone. *)
Theorem destructor_stops_started_source
    (skipCurrentFrame : Z -> bool) (frameRate startTimeUs0 : Z)
    (calls : list call) (s0 s : CameraSource)
    (Hnew : new_CameraSource frameRate startTimeUs0 = Some s0)
    (Hrun : exec skipCurrentFrame calls s0 = Some s)
    (Hcamera : mCamera s = true)
    (Hencoder : mFramesBeingEncoded s = []) :
  (mStarted s = true ->
   exists s' tr,
     delete_CameraSource s = Ret tt s' tr /\
     released tr = mFramesReceived s /\
     mStarted s' = false /\ mCamera s' = false /\
     mFramesReceived s' = [] /\
     mNumFramesReceived s'
     = add32 (mNumFramesEncoded s') (mNumFramesDropped s')) /\
  (mStarted s = false -> delete_CameraSource s = Ret tt s []).
Proof.
  split.
  - intros Hst.
    assert (accounted s) as Hacc.
    { eapply accounted_exec; [|exact Hrun]. eapply accounted_new; exact Hnew. }
    pose proof (stop_begin_live s Hcamera) as Hb.
    pose proof (accounted_stop_begin _ _ _ Hacc Hb) as Hacc1.
    pose proof (stop_begin_stopping _ _ _ Hb) as [Hst1 Hq1].
    match type of Hb with
    | stop_begin s = Ret tt ?sb _ => set (s1 := sb) in *
    end.
    assert (mFramesBeingEncoded s1 = []) as Henc1 by exact Hencoder.
    pose proof (accounted_drained s1 Hacc1 Hq1 Henc1) as Heq.
    destruct (proj1 (stop_drain_drained s1 Henc1) Heq) as [tr2 Hd].
    pose proof (stop_drain_releases_nothing s1) as Hrel.
    rewrite Hd in Hrel. cbn [effects_of] in Hrel.
    unfold delete_CameraSource, stop, bind, get, ret.
    rewrite Hst, Hb, Hd. do 2 eexists. split; [reflexivity|].
    rewrite !released_app, released_stop_prefix, Hrel. cbn [released flat_map].
    rewrite !app_nil_r.
    repeat split; try reflexivity; try assumption.
  - intros Hst. unfold delete_CameraSource, bind, get, ret. rewrite Hst.
    reflexivity.
Qed.

Lemma destructor_stops_started_source_witness :
  exists s' tr,
    delete_CameraSource
      (mkCameraSource true 0 1 0 true [frameA] [] [0] 0 0 0 0 200000 false)
    = Ret tt s' tr /\
    released tr = [frameA] /\ mCamera s' = false.
Proof.
  destruct (proj1 (destructor_stops_started_source skipNone 30 0
                     [Start false None OK; DataCallbackTimestamp 0 frameA]
                     source30
                     (mkCameraSource true 0 1 0 true [frameA] [] [0] 0 0 0 0
                        200000 false)
                     eq_refl ltac:(vm_compute; reflexivity) eq_refl eq_refl)
              eq_refl)
    as (s' & tr & Hrun & Hrel & _ & Hcam & _).
  exists s', tr. repeat split; assumption.
Defined.

(** ** Timestamps that come through the listener *)

Lemma microsecond_gap_fits (timestamp previous : Z) :
  in64 timestamp -> in64 previous ->
  in64 (Z.quot timestamp 1000 - Z.quot previous 1000).
Proof.
  rewrite !in64_bounds. intros Hnow Hprevious.
  pose proof (Z.quot_rem' timestamp 1000) as H1.
  pose proof (Z.quot_rem' previous 1000) as H2.
  pose proof (Z.rem_bound_abs timestamp 1000 ltac:(lia)) as H3.
  pose proof (Z.rem_bound_abs previous 1000 ltac:(lia)) as H4.
  lia.
Qed.

(** X17.  A frame that comes through the listener on a started source
    (the camera handle held) is passed on with its nanosecond timestamp
    divided by 1000, and the callback returns.  When the previous
    timestamp in [mLastFrameTimestampUs] came the same way, the
    subtraction of the glitch test cannot wrap, whatever the two
    [int64_t] nanosecond values: the callback adds one to the glitch
    counter exactly when a frame was received before and the plain
    difference of the two microsecond values exceeds the threshold, and
    leaves the counter alone otherwise.  A frame that is queued leaves
    its microsecond timestamp in [mLastFrameTimestampUs] for the next
    one. *)
Theorem listener_timestamps_do_not_wrap
    (skipCurrentFrame : Z -> bool) (timestamp previous : Z)
    (frame : IMemory) (s : CameraSource)
    (Hstarted : mStarted s = true)
    (Hcamera : mCamera s = true)
    (Hnow : in64 timestamp)
    (Hprevious : in64 previous)
    (Hlast : mLastFrameTimestampUs s = Z.quot previous 1000) :
  exists s' tr,
    postDataTimestamp skipCurrentFrame timestamp frame s = Ret tt s' tr /\
    mNumGlitches s'
    = (if (mNumFramesReceived s >? 0)
          && (Z.quot timestamp 1000 - Z.quot previous 1000
              >? mGlitchDurationThresholdUs s)
       then inc32 (mNumGlitches s) else mNumGlitches s) /\
    (released tr = [] ->
     mLastFrameTimestampUs s' = Z.quot timestamp 1000 /\
     mFramesReceived s' = mFramesReceived s ++ [frame]).
Proof.
  pose proof (microsecond_gap_fits timestamp previous Hnow Hprevious) as Hfit.
  apply wrap64_id in Hfit. fold (sub64 (Z.quot timestamp 1000)
                                   (Z.quot previous 1000)) in Hfit.
  unfold postDataTimestamp.
  set (us := Z.quot timestamp 1000) in *.
  set (pus := Z.quot previous 1000) in *.
  destruct s as [cam t0 r l started q enc ts f0 e d g thr stats].
  cbn in Hstarted, Hcamera, Hlast. subst cam started l.
  unfold dataCallbackTimestamp, detectGlitch, firstFrameGate, queueFrame.
  unfold_monad. cbn. rewrite Hfit.
  repeat (break_branch; cbn);
    do 2 eexists; (split; [reflexivity|]); cbn;
    (split; [reflexivity|]);
    first [intros H; discriminate H | intros _; split; reflexivity].
Qed.

(** The third frame of the glitch scenario, with nanosecond timestamps. *)
Lemma listener_timestamps_do_not_wrap_witness :
  exists s' tr,
    postDataTimestamp skipNone 260000999 frameC
      (mkCameraSource true 0 2 50000 true [frameA; frameB] [] [0; 50000] 0 0
         0 0 200000 false)
    = Ret tt s' tr /\
    mNumGlitches s' = 1.
Proof.
  destruct (listener_timestamps_do_not_wrap skipNone 260000999 50000123
              frameC
              (mkCameraSource true 0 2 50000 true [frameA; frameB] []
                 [0; 50000] 0 0 0 0 200000 false)
              eq_refl eq_refl
              ltac:(vm_compute; split; congruence)
              ltac:(vm_compute; split; congruence)
              eq_refl)
    as (s' & tr & Hrun & Hg & _).
  exists s', tr. split; [exact Hrun|]. rewrite Hg. reflexivity.
Defined.
